(** * playpose-game: the playlist API, serverless handler and dev server

    A shallow embedding of [src/netlify/functions/playlists.py] and
    [src/server.py].  Both files proxy three operations of the
    [ytmusicapi] client (list moods, browse by mood, search playlists)
    and reshape its answers.

    Modelling conventions.
    - A Python value read out of an upstream dict with [.get] is a
      [pyval]: [None] or a [str].  A dict key that may be absent is an
      [option]: [None] is "key not present".
    - Strings are byte strings; [str.lower] is modelled on ASCII letters.
    - The module-level global [ytmusic] and what the process did to the
      outside world (client constructions, client calls) form the [State];
      code that touches them lives in the monad [M], which also carries
      raised exceptions.
    - The [print] diagnostics of the dev server are not part of the
      result and are left out. *)

From Stdlib Require Import ZArith Ascii String.
From stdpp Require Import gmap strings list.

Local Open Scope Z_scope.
Local Open Scope string_scope.

(** ** Python values, strings and exceptions *)

Inductive pyval :=
| PNone
| PStr (s : string).

#[global] Instance pyval_eq_dec : EqDecision pyval.
Proof. solve_decision. Defined.

(** [bool(v)]: [None] and the empty string are falsy. *)
Definition truthy (v : pyval) : bool :=
  match v with
  | PNone => false
  | PStr s => negb (String.eqb s "")
  end.

(** [str(v)], also what an f-string interpolates. *)
Definition py_str (v : pyval) : string :=
  match v with
  | PNone => "None"
  | PStr s => s
  end.

(** [d.get(k)] and [d.get(k, default)] on an optional key. *)
Definition get (field : option pyval) : pyval := default PNone field.
Definition get_or (field : option pyval) (dflt : pyval) : pyval := default dflt field.

Definition lower_ascii (c : ascii) : ascii :=
  let n := nat_of_ascii c in
  if ((65 <=? n) && (n <=? 90))%nat then ascii_of_nat (n + 32) else c.

(** The strings on which this model of [str] is exact: every character
    is an ASCII character (code below 128). *)
Fixpoint ascii_only (s : string) : bool :=
  match s with
  | EmptyString => true
  | String c r => (nat_of_ascii c <? 128)%nat && ascii_only r
  end.

(** [s.lower()], exact on [ascii_only] strings: outside ASCII [str.lower]
    changes letters this function leaves alone, so statements about
    matching carry [ascii_only] hypotheses. *)
Fixpoint lower (s : string) : string :=
  match s with
  | EmptyString => EmptyString
  | String c r => String (lower_ascii c) (lower r)
  end.

(** [needle in hay] on strings: substring test. *)
Fixpoint py_in (needle hay : string) : bool :=
  String.prefix needle hay ||
  match hay with
  | EmptyString => false
  | String _ r => py_in needle r
  end.

Inductive exn_class :=
| ValueError
| TypeError
| KeyError
| AttributeError
| ClientError.   (* whatever the client library raises *)

Record exn := Exn { exn_kind : exn_class; exn_message : string }.

(** [str(e)] *)
Definition str_exn (e : exn) : string := exn_message e.

Inductive outcome (A : Type) :=
| Return (a : A)
| Raise (e : exn).
Arguments Return {A} a.
Arguments Raise {A} e.

(** [v.lower()] where [v] came out of a dict: [None] has no [lower]. *)
Definition py_lower (v : pyval) : outcome string :=
  match v with
  | PStr s => Return (lower s)
  | PNone => Raise (Exn AttributeError "'NoneType' object has no attribute 'lower'")
  end.

(** ** Shapes of the upstream records *)

Module Thumb.
Record t := { url : option pyval }.
End Thumb.

Module Raw.
(** A raw playlist record; every key is optional. *)
Record playlist := {
  playlistId : option pyval;
  title : option pyval;
  description : option pyval;
  thumbnails : option (list Thumb.t)
}.
End Raw.

Module Group.
(** One element of what [get_mood_playlists] returns.  It may carry a
    ["playlists"] list; it is a dict, so it may also carry the keys of a
    playlist itself ([self]). *)
Record t := {
  playlists : option (list Raw.playlist);
  self : Raw.playlist
}.
End Group.

Module SearchItem.
Record t := {
  resultType : option pyval;
  self : Raw.playlist
}.
End SearchItem.

Module MoodItem.
Record t := {
  title : option pyval;
  params : option pyval
}.
End MoodItem.

(** [get_mood_categories()]: a dict from category name to its items, in
    the dict's iteration order. *)
Definition taxonomy := list (string * list MoodItem.t).

(** The client handle, an instance of [ytmusicapi.YTMusic].  Every method
    may raise.  [search] is always called with [filter="playlists"]. *)
Record YTMusic := {
  get_mood_categories : outcome taxonomy;
  get_mood_playlists : pyval -> outcome (list Group.t);
  search : string -> Z -> outcome (list SearchItem.t)
}.

(** ** What the API returns *)

Module Summary.
Record t := {
  id : pyval;
  title : pyval;
  description : pyval;
  thumbnail : pyval;
  url : string
}.
End Summary.

Module Mood.
Record t := { title : pyval; params : pyval }.
End Mood.

(** What an adapter operation returns: a list, or [{"error": msg}]. *)
Inductive adapter_result (A : Type) :=
| Items (l : list A)
| ErrorDict (msg : string).
Arguments Items {A} l.
Arguments ErrorDict {A} msg.

(** The [result] dict of the routers. *)
Inductive api_result :=
| ResMoods (r : adapter_result Mood.t)
| ResPlaylists (r : adapter_result Summary.t)
| ResError (msg : string).

(** ** Process state and the monad of the adapter code *)

Inductive event :=
| Construct                          (* YTMusic() *)
| GetMoodCategories
| GetMoodPlaylists (params : pyval)
| Search (query : string) (limit : Z).

Record State := {
  ytmusic : option YTMusic;          (* the global, None until built *)
  log : list event                   (* what the process did, oldest first *)
}.

Definition initial : State := {| ytmusic := None; log := [] |}.

Definition is_construct (e : event) : bool :=
  match e with Construct => true | _ => false end.

(** Number of times [YTMusic()] has been evaluated so far. *)
Definition constructions (st : State) : nat :=
  length (filter (fun e => is_construct e = true) (log st)).

Definition M (A : Type) := State -> outcome A * State.

Definition ret {A} (a : A) : M A := fun st => (Return a, st).
Definition raise {A} (e : exn) : M A := fun st => (Raise e, st).
Definition bind {A B} (m : M A) (k : A -> M B) : M B :=
  fun st => match m st with
            | (Return a, st') => k a st'
            | (Raise e, st') => (Raise e, st')
            end.
Definition lift {A} (o : outcome A) : M A := fun st => (o, st).

(** [try: body except Exception as e: handler e] *)
Definition try_except {A} (body : M A) (handler : exn -> M A) : M A :=
  fun st => match body st with
            | (Return a, st') => (Return a, st')
            | (Raise e, st') => handler e st'
            end.

Notation "x <- m ;; k" := (bind m (fun x => k))
  (at level 100, m at next level, right associativity).

Definition emit (e : event) : M unit :=
  fun st => (Return tt, {| ytmusic := ytmusic st; log := log st ++ [e] |}).

(** Method calls on the handle, each leaving its mark in the log. *)
Definition call_get_mood_categories (yt : YTMusic) : M taxonomy :=
  _ <- emit GetMoodCategories ;; lift (get_mood_categories yt).
Definition call_get_mood_playlists (yt : YTMusic) (p : pyval) : M (list Group.t) :=
  _ <- emit (GetMoodPlaylists p) ;; lift (get_mood_playlists yt p).
Definition call_search (yt : YTMusic) (q : string) (limit : Z) : M (list SearchItem.t) :=
  _ <- emit (Search q limit) ;; lift (search yt q limit).

(** [MOOD_CATEGORIES], the same table in both files. *)
Definition MOOD_CATEGORIES : gmap string string :=
  list_to_map [
    ("workout", "Workout"); ("energize", "Energize"); ("party", "Party");
    ("chill", "Chill"); ("focus", "Focus"); ("romance", "Romance");
    ("sad", "Sad"); ("sleep", "Sleep"); ("kids", "Kids");
    ("commute", "Commute") ].

(** [get_best_thumbnail], identical in both files:
<<
    if not thumbnails:
        return None
    return thumbnails[-1].get("url") if thumbnails else None
>> *)
Definition get_best_thumbnail (thumbnails : list Thumb.t) : pyval :=
  match thumbnails with
  | [] => PNone
  | _ => match last thumbnails with
         | Some t => get (Thumb.url t)
         | None => PNone
         end
  end.

(** [get_available_moods]'s loops, identical in both files. *)
Definition mood_of_item (item : MoodItem.t) : Mood.t :=
  {| Mood.title := get (MoodItem.title item); Mood.params := get (MoodItem.params item) |}.

Definition flatten_moods (mood_categories : taxonomy) : list Mood.t :=
  flat_map (fun '(_, category_items) => map mood_of_item category_items) mood_categories.

(** ** Builtins used by both files *)

(** [int(s)] on a string: optional surrounding whitespace, an optional
    sign, then decimal digits in which single underscores may separate
    digits; anything else raises [ValueError], and so does a literal of
    more than [int_max_str_digits] digits.  Exact on [ascii_only]
    strings: the decimal digits and spaces of other scripts, which [int]
    also accepts, are not modelled. *)
Definition is_space (c : ascii) : bool :=
  let n := nat_of_ascii c in
  (((9 <=? n) && (n <=? 13)) || ((28 <=? n) && (n <=? 32)))%nat.

Fixpoint lstrip (s : string) : string :=
  match s with
  | String c r => if is_space c then lstrip r else s
  | EmptyString => EmptyString
  end.

Definition strip (s : string) : string :=
  String.rev (lstrip (String.rev (lstrip s))).

Definition digit_of (c : ascii) : option Z :=
  let n := nat_of_ascii c in
  if ((48 <=? n) && (n <=? 57))%nat then Some (Z.of_nat (n - 48)) else None.

Inductive digits_state := AtStart | AfterDigit | AfterUnderscore.

Fixpoint digits (st : digits_state) (acc : Z) (s : string) : option Z :=
  match s with
  | EmptyString => match st with AfterDigit => Some acc | _ => None end
  | String c r =>
      match digit_of c with
      | Some d => digits AfterDigit (10 * acc + d) r
      | None =>
          if Ascii.eqb c "_"%char
          then match st with AfterDigit => digits AfterUnderscore acc r | _ => None end
          else None
      end
  end.

Definition signed_digits (s : string) : option Z :=
  match s with
  | String "-"%char r => Z.opp <$> digits AtStart 0 r
  | String "+"%char r => digits AtStart 0 r
  | _ => digits AtStart 0 s
  end.

(** [sys.get_int_max_str_digits()], as the interpreter starts. *)
Definition int_max_str_digits : nat := 4300.

Fixpoint count_digits (s : string) : nat :=
  match s with
  | EmptyString => 0
  | String c r => (match digit_of c with Some _ => 1 | None => 0 end) + count_digits r
  end.

Definition py_int (s : string) : outcome Z :=
  match signed_digits (strip s) with
  | Some n =>
      if (int_max_str_digits <? count_digits s)%nat
      then Raise (Exn ValueError
                    "Exceeds the limit (4300 digits) for integer string conversion")
      else Return n
  | None => Raise (Exn ValueError ("invalid literal for int() with base 10: '" ++ s ++ "'"))
  end.

(** The limit expression of both routers:
<<
    try:
        limit = min(50, max(1, int(<raw>)))
    except (ValueError, TypeError):
        limit = 10
>> *)
Definition parse_limit (raw : string) : outcome Z :=
  match py_int raw with
  | Return n => Return (Z.min 50 (Z.max 1 n))
  | Raise e =>
      match exn_kind e with
      | ValueError | TypeError => Return 10
      | _ => Raise e
      end
  end.

(** ** The lazily built client handle *)

Section Handle.
(** [YTMusic()].  The argument is the number of constructions the process
    attempted before this one, so that a construction may fail now and
    succeed later. *)
Variable YTMusic_new : nat -> outcome YTMusic.

Definition read_ytmusic : M (option YTMusic) :=
  fun st => (Return (ytmusic st), st).

Definition write_ytmusic (yt : YTMusic) : M unit :=
  fun st => (Return tt, {| ytmusic := Some yt; log := log st |}).

Definition construct : M YTMusic :=
  fun st => (YTMusic_new (constructions st),
             {| ytmusic := ytmusic st; log := log st ++ [Construct] |}).
End Handle.

(** The router's answer: always status 200, the result dict as body. *)
Record response := { statusCode : Z; body : api_result }.

(** ** src/netlify/functions/playlists.py *)

Module Netlify.
Section Host.
Variable YTMusic_new : nat -> outcome YTMusic.

(**
<<
    global ytmusic
    if ytmusic is None:
        ytmusic = YTMusic()
    return ytmusic
>> *)
Definition get_ytmusic : M YTMusic :=
  cur <- read_ytmusic ;;
  match cur with
  | None => yt <- construct YTMusic_new ;; _ <- write_ytmusic yt ;; ret yt
  | Some yt => ret yt
  end.

(** The dict appended by [fetch_mood_playlists]. *)
Definition browse_summary (playlist : Raw.playlist) : Summary.t :=
  {| Summary.id := get (Raw.playlistId playlist);
     Summary.title := get (Raw.title playlist);
     Summary.description := get_or (Raw.description playlist) (PStr "");
     Summary.thumbnail := get_best_thumbnail (default [] (Raw.thumbnails playlist));
     Summary.url := "https://music.youtube.com/playlist?list="
                    ++ py_str (get (Raw.playlistId playlist)) |}.

(** [for playlist in playlist_group.get("playlists", []): ...] *)
Fixpoint add_playlists (limit : Z) (group_playlists : list Raw.playlist)
    (playlists : list Summary.t) : list Summary.t :=
  match group_playlists with
  | [] => playlists
  | playlist :: rest =>
      if Z.of_nat (length playlists) >=? limit then playlists      (* break *)
      else add_playlists limit rest (playlists ++ [browse_summary playlist])
  end.

(** [for playlist_group in mood_playlists: ...] *)
Definition add_groups (limit : Z) (mood_playlists : list Group.t)
    (playlists : list Summary.t) : list Summary.t :=
  fold_left
    (fun playlists playlist_group =>
       add_playlists limit (default [] (Group.playlists playlist_group)) playlists)
    mood_playlists playlists.

(** [item["params"]] *)
Definition subscript_params (item : MoodItem.t) : outcome pyval :=
  match MoodItem.params item with
  | Some v => Return v
  | None => Raise (Exn KeyError "'params'")
  end.

(** [for item in category_items: ...]; [target] is [target_mood.lower()]. *)
Fixpoint scan_items (yt : YTMusic) (target : string) (limit : Z)
    (category_items : list MoodItem.t) (playlists : list Summary.t)
    : M (list Summary.t) :=
  match category_items with
  | [] => ret playlists
  | item :: rest =>
      item_title <- lift (py_lower (get_or (MoodItem.title item) (PStr ""))) ;;
      if py_in target item_title then
        p <- lift (subscript_params item) ;;
        mood_playlists <- call_get_mood_playlists yt p ;;
        scan_items yt target limit rest (add_groups limit mood_playlists playlists)
      else scan_items yt target limit rest playlists
  end.

(** [for category_name, category_items in mood_categories.items(): ...] *)
Fixpoint scan_categories (yt : YTMusic) (target : string) (limit : Z)
    (mood_categories : taxonomy) (playlists : list Summary.t)
    : M (list Summary.t) :=
  match mood_categories with
  | [] => ret playlists
  | (_, category_items) :: rest =>
      playlists' <- scan_items yt target limit category_items playlists ;;
      scan_categories yt target limit rest playlists'
  end.

Definition fetch_mood_playlists (mood : string) (limit : Z)
    : M (adapter_result Summary.t) :=
  yt <- get_ytmusic ;;
  try_except
    (mood_categories <- call_get_mood_categories yt ;;
     let target_mood := default mood (MOOD_CATEGORIES !! lower mood) in
     playlists <- scan_categories yt (lower target_mood) limit mood_categories [] ;;
     ret (Items playlists))
    (fun e => ret (ErrorDict (str_exn e))).

(** The dict appended by [search_playlists]. *)
Definition search_summary (item : Raw.playlist) : Summary.t :=
  {| Summary.id := get (Raw.playlistId item);
     Summary.title := get (Raw.title item);
     Summary.description := get_or (Raw.description item) (PStr "");
     Summary.thumbnail := get_best_thumbnail (default [] (Raw.thumbnails item));
     Summary.url := "https://www.youtube.com/playlist?list="
                    ++ py_str (get (Raw.playlistId item)) |}.

(** [for item in results: if item.get("resultType") == "playlist": ...] *)
Fixpoint collect_results (results : list SearchItem.t) (playlists : list Summary.t)
    : list Summary.t :=
  match results with
  | [] => playlists
  | item :: rest =>
      if bool_decide (get (SearchItem.resultType item) = PStr "playlist")
      then collect_results rest (playlists ++ [search_summary (SearchItem.self item)])
      else collect_results rest playlists
  end.

Definition search_playlists (query : string) (limit : Z)
    : M (adapter_result Summary.t) :=
  yt <- get_ytmusic ;;
  try_except
    (results <- call_search yt query limit ;;
     ret (Items (collect_results results [])))
    (fun e => ret (ErrorDict (str_exn e))).

Definition get_available_moods : M (adapter_result Mood.t) :=
  yt <- get_ytmusic ;;
  try_except
    (mood_categories <- call_get_mood_categories yt ;;
     ret (Items (flatten_moods mood_categories)))
    (fun e => ret (ErrorDict (str_exn e))).

(** The limit of a request: [parse_limit] on [params.get("limit", "10")]. *)
Definition request_limit (params : gmap string string) : outcome Z :=
  parse_limit (default "10" (params !! "limit")).

(** [handler(event, context)]; [event] is the value of
    [event.get("queryStringParameters")], [None] when absent or null. *)
Definition handler (event : option (gmap string string)) : M response :=
  let params := default ∅ event in
  let action := default "moods" (params !! "action") in
  limit <- lift (request_limit params) ;;
  result <-
    (if String.eqb action "moods" then
       r <- get_available_moods ;; ret (ResMoods r)
     else if String.eqb action "browse" then
       let mood := default "party" (params !! "mood") in
       r <- fetch_mood_playlists mood limit ;; ret (ResPlaylists r)
     else if String.eqb action "search" then
       let query := default "" (params !! "q") in
       if negb (String.eqb query "") then
         r <- search_playlists query limit ;; ret (ResPlaylists r)
       else ret (ResError "Missing 'q' parameter for search")
     else ret (ResError ("Unknown action: " ++ action))) ;;
  ret {| statusCode := 200; body := result |}.

(** The life of one function instance: the runtime invokes [handler] once
    per event, in turn.  An exception that leaves [handler] fails that
    invocation only; the module, and its global, stay loaded. *)
Definition serve (events : list (option (gmap string string))) (st : State) : State :=
  fold_left (fun st event => (handler event st).2) events st.
End Host.
End Netlify.

(** ** src/server.py *)

Module Server.

(** One value list of [parse_qs]: never empty. *)
Record qs_values := { first : string; others : list string }.

Section Host.
(** Whether [from ytmusicapi import YTMusic] succeeded at start-up. *)
Variable YTMUSIC_AVAILABLE : bool.
Variable YTMusic_new : nat -> outcome YTMusic.

(**
<<
    global ytmusic
    if ytmusic is None and YTMUSIC_AVAILABLE:
        ytmusic = YTMusic()
    return ytmusic
>> *)
Definition get_ytmusic : M (option YTMusic) :=
  cur <- read_ytmusic ;;
  match cur with
  | None =>
      if YTMUSIC_AVAILABLE
      then yt <- construct YTMusic_new ;; _ <- write_ytmusic yt ;; ret (Some yt)
      else ret None
  | Some yt => ret (Some yt)
  end.

(** The inner matching loop; [matched_params] is returned as the loop
    leaves it.
<<
    for item in category_items:
        item_title = item.get("title", "").lower()
        if target_mood in item_title or item_title in target_mood:
            matched_params = item.get("params")
            break
>> *)
Fixpoint match_items (target_mood : string) (category_items : list MoodItem.t)
    (matched_params : pyval) : outcome pyval :=
  match category_items with
  | [] => Return matched_params
  | item :: rest =>
      match py_lower (get_or (MoodItem.title item) (PStr "")) with
      | Raise e => Raise e
      | Return item_title =>
          if py_in target_mood item_title || py_in item_title target_mood
          then Return (get (MoodItem.params item))                    (* break *)
          else match_items target_mood rest matched_params
      end
  end.

(** The outer loop, left by [if matched_params: break]. *)
Fixpoint match_categories (target_mood : string) (mood_categories : taxonomy)
    (matched_params : pyval) : outcome pyval :=
  match mood_categories with
  | [] => Return matched_params
  | (_, category_items) :: rest =>
      match match_items target_mood category_items matched_params with
      | Raise e => Raise e
      | Return matched_params' =>
          if truthy matched_params' then Return matched_params'      (* break *)
          else match_categories target_mood rest matched_params'
      end
  end.

(**
<<
    if not matched_params and mood_categories:
        first_category = list(mood_categories.values())[0]
        if first_category:
            matched_params = first_category[0].get("params")
>> *)
Definition fallback (mood_categories : taxonomy) (matched_params : pyval) : pyval :=
  if negb (truthy matched_params) then
    match mood_categories with
    | (_, first_category) :: _ =>
        match first_category with
        | item :: _ => get (MoodItem.params item)
        | [] => matched_params
        end
    | [] => matched_params
    end
  else matched_params.

(** [not playlist_id or playlist_id == "None"
     or str(playlist_id).lower() in ("none", "null")] *)
Definition invalid_id (playlist_id : pyval) : bool :=
  negb (truthy playlist_id)
  || bool_decide (playlist_id = PStr "None")
  || (String.eqb (lower (py_str playlist_id)) "none"
      || String.eqb (lower (py_str playlist_id)) "null").

(** [not playlist_id or str(playlist_id).lower() in ("none", "null")],
    the test of [search_playlists]. *)
Definition invalid_search_id (playlist_id : pyval) : bool :=
  negb (truthy playlist_id)
  || (String.eqb (lower (py_str playlist_id)) "none"
      || String.eqb (lower (py_str playlist_id)) "null").

Definition summary (playlist : Raw.playlist) (playlist_id : pyval) : Summary.t :=
  {| Summary.id := playlist_id;
     Summary.title := get_or (Raw.title playlist) (PStr "Unknown");
     Summary.description := get_or (Raw.description playlist) (PStr "");
     Summary.thumbnail := get_best_thumbnail (default [] (Raw.thumbnails playlist));
     Summary.url := "https://www.youtube.com/playlist?list=" ++ py_str playlist_id |}.

(** [for playlist in group_playlists: ...] *)
Fixpoint add_playlists (limit : Z) (group_playlists : list Raw.playlist)
    (playlists : list Summary.t) : list Summary.t :=
  match group_playlists with
  | [] => playlists
  | playlist :: rest =>
      if Z.of_nat (length playlists) >=? limit then playlists      (* break *)
      else
        let playlist_id := get (Raw.playlistId playlist) in
        if invalid_id playlist_id then add_playlists limit rest playlists   (* continue *)
        else add_playlists limit rest (playlists ++ [summary playlist playlist_id])
  end.

(**
<<
    group_playlists = playlist_group.get("playlists", [])
    if not group_playlists and isinstance(playlist_group, dict):
        if "playlistId" in playlist_group:
            group_playlists = [playlist_group]
>> *)
Definition group_playlists_of (playlist_group : Group.t) : list Raw.playlist :=
  let group_playlists := default [] (Group.playlists playlist_group) in
  match group_playlists with
  | [] =>
      match Raw.playlistId (Group.self playlist_group) with
      | Some _ => [Group.self playlist_group]
      | None => group_playlists
      end
  | _ => group_playlists
  end.

(** [for playlist_group in mood_playlists: ...] *)
Definition add_groups (limit : Z) (mood_playlists : list Group.t)
    (playlists : list Summary.t) : list Summary.t :=
  fold_left
    (fun playlists playlist_group =>
       add_playlists limit (group_playlists_of playlist_group) playlists)
    mood_playlists playlists.

Definition fetch_mood_playlists (mood : string) (limit : Z)
    : M (adapter_result Summary.t) :=
  yt <- get_ytmusic ;;
  match yt with
  | None => ret (ErrorDict "ytmusicapi not available")
  | Some yt =>
      try_except
        (mood_categories <- call_get_mood_categories yt ;;
         let target_mood := lower (default mood (MOOD_CATEGORIES !! lower mood)) in
         matched_params <- lift (match_categories target_mood mood_categories PNone) ;;
         let matched_params := fallback mood_categories matched_params in
         if truthy matched_params then
           mood_playlists <- call_get_mood_playlists yt matched_params ;;
           ret (Items (add_groups limit mood_playlists []))
         else ret (Items []))
        (fun e => ret (ErrorDict (str_exn e)))
  end.

(** [for item in results: ...] of [search_playlists]. *)
Fixpoint collect_results (results : list SearchItem.t) (playlists : list Summary.t)
    : list Summary.t :=
  match results with
  | [] => playlists
  | item :: rest =>
      if bool_decide (get (SearchItem.resultType item) = PStr "playlist") then
        let playlist_id := get (Raw.playlistId (SearchItem.self item)) in
        if invalid_search_id playlist_id then collect_results rest playlists
        else collect_results rest
               (playlists ++ [summary (SearchItem.self item) playlist_id])
      else collect_results rest playlists
  end.

Definition search_playlists (query : string) (limit : Z)
    : M (adapter_result Summary.t) :=
  yt <- get_ytmusic ;;
  match yt with
  | None => ret (ErrorDict "ytmusicapi not available")
  | Some yt =>
      try_except
        (results <- call_search yt query limit ;;
         ret (Items (collect_results results [])))
        (fun e => ret (ErrorDict (str_exn e)))
  end.

Definition get_available_moods : M (adapter_result Mood.t) :=
  yt <- get_ytmusic ;;
  match yt with
  | None => ret (ErrorDict "ytmusicapi not available")
  | Some yt =>
      try_except
        (mood_categories <- call_get_mood_categories yt ;;
         ret (Items (flatten_moods mood_categories)))
        (fun e => ret (ErrorDict (str_exn e)))
  end.

(** [params.get(key, [dflt])[0]] on the dict [parse_qs] built. *)
Definition param (params : gmap string qs_values) (key dflt : string) : string :=
  match params !! key with
  | Some vs => first vs
  | None => dflt
  end.

(** The limit of a request: [parse_limit] on
    [params.get("limit", ["10"])[0]]. *)
Definition request_limit (params : gmap string qs_values) : outcome Z :=
  parse_limit (param params "limit" "10").

(** [DevHandler.handle_api]; [params] is [parse_qs(parsed.query)]. *)
Definition handle_api (params : gmap string qs_values) : M response :=
  let action := param params "action" "moods" in
  limit <- lift (request_limit params) ;;
  result <-
    (if String.eqb action "moods" then
       r <- get_available_moods ;; ret (ResMoods r)
     else if String.eqb action "browse" then
       let mood := param params "mood" "party" in
       r <- fetch_mood_playlists mood limit ;; ret (ResPlaylists r)
     else if String.eqb action "search" then
       let query := param params "q" "" in
       if negb (String.eqb query "") then
         r <- search_playlists query limit ;; ret (ResPlaylists r)
       else ret (ResError "Missing 'q' parameter for search")
     else ret (ResError ("Unknown action: " ++ action))) ;;
  ret {| statusCode := 200; body := result |}.

(** The life of the dev server: [serve_forever] handles one API request
    after the other.  An exception that leaves [handle_api] is reported
    by the HTTP server and ends that request only. *)
Definition serve (requests : list (gmap string qs_values)) (st : State) : State :=
  fold_left (fun st params => (handle_api params st).2) requests st.
End Host.
End Server.

(** ** src/server.py, [DevHandler.log_message] *)

Module DevHandler.

(** [log_message(format, *args)] on a request line [args[0]]: the line it
    prints, if any.
<<
    if '/api/' in args[0]:
        print(f"[API] {args[0]}")
    elif not any(ext in args[0] for ext in ['.js', '.css', '.ico', '.png', '.jpg']):
        print(f"[GET] {args[0]}")
>> *)
Definition log_message (line : string) : option string :=
  if py_in "/api/" line then Some ("[API] " ++ line)
  else if negb (existsb (fun ext => py_in ext line) [".js"; ".css"; ".ico"; ".png"; ".jpg"])
       then Some ("[GET] " ++ line)
       else None.
End DevHandler.

(** ** Vocabulary of the statements, and sample upstreams *)

(** What [parse_limit] computes, spelled as the nearest bound of [1, 50]. *)
Definition nearest_in_range (k : Z) : Z :=
  if (k <? 1)%Z then 1 else if (50 <? k)%Z then 50 else k.

(** The exception, if any, with which the handle [yt] answers the call
    logged as [ev]. *)
Definition raised_by (yt : YTMusic) (ev : event) : option exn :=
  match ev with
  | Construct => None
  | GetMoodCategories =>
      match get_mood_categories yt with Raise e => Some e | Return _ => None end
  | GetMoodPlaylists p =>
      match get_mood_playlists yt p with Raise e => Some e | Return _ => None end
  | Search q limit =>
      match search yt q limit with Raise e => Some e | Return _ => None end
  end.

(** [tame yt m]: running [m] leaves the global alone and only appends
    method calls to the log; a call among them that the handle [yt]
    answers with an exception is the exception [m] ends with. *)
Definition tame {A} (yt : YTMusic) (m : M A) : Prop :=
  forall st, exists evs,
    (m st).2 = {| ytmusic := ytmusic st; log := log st ++ evs |} /\
    Forall (fun ev => is_construct ev = false) evs /\
    forall ev e, ev ∈ evs -> raised_by yt ev = Some e -> (m st).1 = Raise e.

(** [answers yt st1 r]: from the state [st1] in which [get_ytmusic]
    handed out [yt], the operation ended in [r]: it returned, it only
    called methods, and a method call that raised is reported as
    [{"error": str(e)}]. *)
Definition answers {A} (yt : YTMusic) (st1 : State)
    (r : outcome (adapter_result A) * State) : Prop :=
  exists evs,
    r.2 = {| ytmusic := ytmusic st1; log := log st1 ++ evs |} /\
    Forall (fun ev => is_construct ev = false) evs /\
    (exists x, r.1 = Return x) /\
    forall ev e, ev ∈ evs -> raised_by yt ev = Some e ->
                 r.1 = Return (ErrorDict (exn_message e)).

(** [reported yt st r]: the operation started in [st] and ended in [r];
    it returned, and every method call it made that [yt] answered with an
    exception [e] is reported as [{"error": str(e)}]. *)
Definition reported {A} (yt : YTMusic) (st : State)
    (r : outcome (adapter_result A) * State) : Prop :=
  (exists x, r.1 = Return x) /\
  forall ev e, ev ∈ drop (length (log st)) (log r.2) ->
               raised_by yt ev = Some e ->
               r.1 = Return (ErrorDict (exn_message e)).

(** How an operation of the serverless file ends, by what its call of
    [get_ytmusic] does. *)
Definition netlify_outcome {A} (new : nat -> outcome YTMusic) (st : State)
    (r : outcome (adapter_result A) * State) : Prop :=
  match (Netlify.get_ytmusic new st).1 with
  | Raise e => r.1 = Raise e
  | Return yt => reported yt st r
  end.

(** The same for the dev server, whose [get_ytmusic] may return [None]. *)
Definition server_outcome {A} (av : bool) (new : nat -> outcome YTMusic) (st : State)
    (r : outcome (adapter_result A) * State) : Prop :=
  match (Server.get_ytmusic av new st).1 with
  | Raise e => r.1 = Raise e
  | Return None => r.1 = Return (ErrorDict "ytmusicapi not available")
  | Return (Some yt) => reported yt st r
  end.

(** A host on which [YTMusic()] always fails. *)
Definition offline : nat -> outcome YTMusic :=
  fun _ => Raise (Exn ClientError "Failed to establish a new connection").

(** An upstream playlist record with the given id. *)
Definition record (playlist_id : string) : Raw.playlist :=
  {| Raw.playlistId := Some (PStr playlist_id); Raw.title := Some (PStr "Mix");
     Raw.description := None; Raw.thumbnails := None |}.

(** A record that is no playlist: a group that only carries a list. *)
Definition no_record : Raw.playlist :=
  {| Raw.playlistId := None; Raw.title := None;
     Raw.description := None; Raw.thumbnails := None |}.

(** A client that answers every call: one mood, two playlists for it. *)
Definition demo_client : YTMusic :=
  {| get_mood_categories :=
       Return [("Moods & moments",
                [ {| MoodItem.title := Some (PStr "Party");
                     MoodItem.params := Some (PStr "p1") |} ])];
     get_mood_playlists := fun _ =>
       Return [ {| Group.playlists := Some [record "PL1"; record "PL2"];
                   Group.self := no_record |} ];
     search := fun _ _ => Return [] |}.

(** A process that already holds [demo_client]. *)
Definition warm : State := {| ytmusic := Some demo_client; log := [] |}.

(** The playlists a router answered with, if it answered with a list. *)
Definition playlists_of (r : outcome response * State) : option (list Summary.t) :=
  match r.1 with
  | Return resp => match body resp with
                   | ResPlaylists (Items l) => Some l
                   | _ => None
                   end
  | Raise _ => None
  end.

(** [parse_qs] on a query string in which every key occurs once. *)
Definition query_string (l : list (string * string)) : gmap string Server.qs_values :=
  list_to_map (map (fun '(k, v) => (k, {| Server.first := v; Server.others := [] |})) l).

(** A client whose [search] returns two playlists whatever the limit. *)
Definition two_hits : YTMusic :=
  {| get_mood_categories := Return [];
     get_mood_playlists := fun _ => Return [];
     search := fun _ _ =>
       Return [ {| SearchItem.resultType := Some (PStr "playlist");
                   SearchItem.self := record "PLa" |};
                {| SearchItem.resultType := Some (PStr "playlist");
                   SearchItem.self := record "PLb" |} ] |}.

(** [needle] occurs in [hay]. *)
Definition substring (needle hay : string) : Prop :=
  exists pre post, hay = pre ++ needle ++ post.

(** The label a mood keyword resolves to. *)
Definition resolved_label (mood : string) : string :=
  default mood (MOOD_CATEGORIES !! lower mood).

(** The title of [item] is a string, and it matches [label]: compared in
    lower case, one contains the other. *)
Definition title_matches (label : string) (item : MoodItem.t) : Prop :=
  exists t, get_or (MoodItem.title item) (PStr "") = PStr t /\
            (substring (lower label) (lower t) \/ substring (lower t) (lower label)).

(** The title of [item] is an ASCII string (or absent) and does not
    match. *)
Definition title_differs (label : string) (item : MoodItem.t) : Prop :=
  exists t, get_or (MoodItem.title item) (PStr "") = PStr t /\
            ascii_only t = true /\
            ~ substring (lower label) (lower t) /\ ~ substring (lower t) (lower label).

(** A client over a given taxonomy; the playlist it returns for a
    [params] token names the token. *)
Definition catalogue (cats : taxonomy) : YTMusic :=
  {| get_mood_categories := Return cats;
     get_mood_playlists := fun p =>
       Return [ {| Group.playlists := Some [record ("PL-" ++ py_str p)];
                   Group.self := no_record |} ];
     search := fun _ _ => Return [] |}.

(** A taxonomy item with both keys. *)
Definition mood_item (title params : string) : MoodItem.t :=
  {| MoodItem.title := Some (PStr title); MoodItem.params := Some (PStr params) |}.

(** A process that already holds the handle [yt] and has done nothing yet. *)
Definition holding (yt : YTMusic) : State := {| ytmusic := Some yt; log := [] |}.

(** A non-empty string other than "none" and "null" in any letter case. *)
Definition valid_id (v : pyval) : Prop :=
  exists i, v = PStr i /\ i <> "" /\ lower i <> "none" /\ lower i <> "null".

(** Upstream records with placeholder ids, and one good one. *)
Definition placeholders : list Raw.playlist :=
  [no_record; record "None"; record "null"; record ""; record "PLok"].

(** A client that serves them, for browse and for search. *)
Definition sloppy : YTMusic :=
  {| get_mood_categories := Return [("Moods", [mood_item "Party" "p1"])];
     get_mood_playlists := fun _ =>
       Return [ {| Group.playlists := Some placeholders; Group.self := no_record |} ];
     search := fun _ _ =>
       Return (map (fun r => {| SearchItem.resultType := Some (PStr "playlist");
                                SearchItem.self := r |}) placeholders) |}.

(** A client whose taxonomy call fails. *)
Definition failing : YTMusic :=
  {| get_mood_categories := Raise (Exn ClientError "quota exceeded");
     get_mood_playlists := fun _ => Raise (Exn ClientError "quota exceeded");
     search := fun _ _ => Raise (Exn ClientError "quota exceeded") |}.

(** [item.get("resultType") == "playlist"] *)
Definition is_playlist (item : SearchItem.t) : bool :=
  bool_decide (get (SearchItem.resultType item) = PStr "playlist").

(** The [playlistId] entry of a search result. *)
Definition result_id (item : SearchItem.t) : pyval :=
  get (Raw.playlistId (SearchItem.self item)).

(** The summaries the dev server's browse makes of a run of records:
    one for every record whose id passes the filter, in order. *)
Definition server_kept (records : list Raw.playlist) : list Summary.t :=
  map (fun p => Server.summary p (get (Raw.playlistId p)))
      (filter (fun p => Server.invalid_id (get (Raw.playlistId p)) = false) records).

(** The taxonomy's items, category after category. *)
Definition all_items (cats : taxonomy) : list MoodItem.t :=
  concat (map snd cats).

(** The serverless test on one item: its title, a string, contains
    [target].  Like [lower], exact on ASCII titles; the statements that
    use it assume [ascii_title]. *)
Definition netlify_hit (target : string) (item : MoodItem.t) : bool :=
  match get_or (MoodItem.title item) (PStr "") with
  | PStr t => py_in target (lower t)
  | PNone => false
  end.

(** The groups the handle returns for an item's [params]; none if the
    call raises. *)
Definition groups_for (yt : YTMusic) (item : MoodItem.t) : list Group.t :=
  match get_mood_playlists yt (get (MoodItem.params item)) with
  | Return groups => groups
  | Raise _ => []
  end.

(** The records listed under the ["playlists"] keys of some groups. *)
Definition listed (groups : list Group.t) : list Raw.playlist :=
  concat (map (fun g => default [] (Group.playlists g)) groups).

(** An item the serverless loop gets past without an exception: its
    title is a string or absent, and if it is a hit it has a [params] key
    for which the handle returns groups. *)
Definition passable (yt : YTMusic) (target : string) (item : MoodItem.t) : Prop :=
  (exists t, get_or (MoodItem.title item) (PStr "") = PStr t) /\
  (netlify_hit target item = true ->
   is_Some (MoodItem.params item) /\
   exists groups, get_mood_playlists yt (get (MoodItem.params item)) = Return groups).

(** The [url] of [s] is [host], the playlist path and [str] of its [id]. *)
Definition links_to (host : string) (s : Summary.t) : Prop :=
  Summary.url s = host ++ "/playlist?list=" ++ py_str (Summary.id s).










(** The title of [item], if it is a string, is an ASCII string. *)
Definition ascii_title (item : MoodItem.t) : Prop :=
  forall t, get_or (MoodItem.title item) (PStr "") = PStr t -> ascii_only t = true.

(** ** Properties *)

(** C9: the thumbnail selector returns null on the empty sequence and the
    [url] entry of the last element on a non-empty one. *)
Theorem get_best_thumbnail_last :
  get_best_thumbnail [] = PNone /\
  forall (ts : list Thumb.t) (t : Thumb.t),
    get_best_thumbnail (ts ++ [t]) = get (Thumb.url t).
Proof.
  split; [reflexivity|].
  intros ts t. unfold get_best_thumbnail.
  rewrite last_snoc. destruct ts; reflexivity.
Qed.

(** *** The limit parameter *)

Lemma py_int_raises_ValueError (s : string) (e : exn) :
  py_int s = Raise e -> exn_kind e = ValueError.
Proof.
  unfold py_int. destruct (signed_digits (strip s));
    [destruct (_ <? _)%nat; [|discriminate]|]; intros [= <-]; reflexivity.
Qed.

Example py_int_examples :
  py_int "10" = Return 10 /\ py_int " 42 " = Return 42 /\
  py_int "-7" = Return (-7) /\ py_int "+1_000" = Return 1000 /\
  py_int "007" = Return 7 /\
  (forall s, s ∈ ["abc"; ""; "10.5"; "1e2"; "5_"; "_5"; "1__0"; "- 3"; "--3"] ->
             exists e, py_int s = Raise e).
Proof.
  repeat split; try reflexivity.
  intros s Hs. repeat (apply elem_of_cons in Hs as [-> | Hs]; [eexists; reflexivity|]).
  by apply elem_of_nil in Hs.
Qed.

Lemma parse_limit_spec (raw : string) :
  parse_limit raw =
  Return (match py_int raw with
          | Return k => nearest_in_range k
          | Raise _ => 10
          end).
Proof.
  unfold parse_limit, nearest_in_range.
  destruct (py_int raw) as [k | e] eqn:E.
  - f_equal. destruct (Z.ltb_spec k 1), (Z.ltb_spec 50 k); lia.
  - by rewrite (py_int_raises_ValueError _ _ E).
Qed.

Lemma parse_limit_range (raw : string) :
  exists n, parse_limit raw = Return n /\ 1 <= n <= 50.
Proof.
  rewrite parse_limit_spec. eexists; split; [reflexivity|].
  unfold nearest_in_range.
  destruct (py_int raw) as [k | e]; [|lia].
  destruct (Z.ltb_spec k 1), (Z.ltb_spec 50 k); lia.
Qed.






Lemma rev_app_twice (a b : string) :
  String.rev_app (String.rev_app a b) "" = String.rev_app b a.
Proof. revert b. induction a as [|x a IH]; intros b; simpl; [done|]. by rewrite IH. Qed.




(** A string that neither starts nor ends with a space is its own strip. *)
Lemma strip_literal (x : ascii) (r : string) (y : ascii) (t : string) :
  is_space x = false -> is_space y = false ->
  String.rev (String x r) = String y t ->
  strip (String x r) = String x r.
Proof.
  intros Hx Hy Hrev. unfold strip. simpl lstrip at 2. rewrite Hx, Hrev.
  simpl lstrip. rewrite Hy, <- Hrev. unfold String.rev. by rewrite rev_app_twice.
Qed.












(** *** Search without a query *)

Ltac unfold_monad :=
  unfold bind, ret, raise, lift, try_except, emit, read_ytmusic, write_ytmusic,
    construct in *.

(** C7: [action=search] with [q] missing or empty is answered with the
    fixed error by both routers, and the process state, hence the log of
    client constructions and calls, is left as it was. *)
Theorem search_without_query :
  (forall YTMusic_new (params : gmap string string) (st : State),
      params !! "action" = Some "search" ->
      params !! "q" = None \/ params !! "q" = Some "" ->
      Netlify.handler YTMusic_new (Some params) st =
      (Return {| statusCode := 200;
                 body := ResError "Missing 'q' parameter for search" |}, st)) /\
  (forall available YTMusic_new (params : gmap string Server.qs_values) (st : State),
      Server.first <$> params !! "action" = Some "search" ->
      params !! "q" = None \/ Server.first <$> params !! "q" = Some "" ->
      Server.handle_api available YTMusic_new params st =
      (Return {| statusCode := 200;
                 body := ResError "Missing 'q' parameter for search" |}, st)).
Proof.
  split.
  - intros new params st Ha Hq. unfold Netlify.handler. simpl.
    destruct (parse_limit_range (default "10" (params !! "limit"))) as (n & Hn & _).
    unfold Netlify.request_limit. rewrite Hn, Ha. unfold_monad. simpl.
    by destruct Hq as [-> | ->].
  - intros av new params st Ha Hq. unfold Server.handle_api.
    destruct (parse_limit_range (Server.param params "limit" "10")) as (n & Hn & _).
    unfold Server.request_limit. rewrite Hn.
    assert (Server.param params "action" "moods" = "search") as ->.
    { unfold Server.param. destruct (params !! "action"); by simplify_eq/=. }
    assert (Server.param params "q" "" = "") as ->.
    { unfold Server.param. destruct Hq as [-> | Hq]; [done|].
      destruct (params !! "q"); by simplify_eq/=. }
    reflexivity.
Qed.

Lemma search_without_query_witness :
  Netlify.handler offline (Some {[ "action" := "search"; "limit" := "5" ]}) initial =
  (Return {| statusCode := 200;
             body := ResError "Missing 'q' parameter for search" |}, initial) /\
  Server.handle_api true offline (query_string [("action", "search")]) warm =
  (Return {| statusCode := 200;
             body := ResError "Missing 'q' parameter for search" |}, warm).
Proof.
  split.
  - apply (proj1 search_without_query); [reflexivity | left; reflexivity].
  - apply (proj2 search_without_query); [reflexivity | left; reflexivity].
Defined.

(** *** What code that already holds the handle does to the state *)

Lemma state_eta (st : State) :
  st = {| ytmusic := ytmusic st; log := log st ++ [] |}.
Proof. destruct st; simpl. by rewrite app_nil_r. Qed.

Lemma tame_pure {A} yt (o : outcome A) : tame yt (lift o).
Proof.
  intros st. exists []. split; [apply state_eta|]. split; [constructor|].
  intros ev e Hin. by apply elem_of_nil in Hin.
Qed.

Lemma tame_ret {A} yt (a : A) : tame yt (ret a).
Proof. apply (tame_pure yt (Return a)). Qed.

Lemma tame_bind {A B} yt (m : M A) (k : A -> M B) :
  tame yt m -> (forall a, tame yt (k a)) -> tame yt (bind m k).
Proof.
  intros Hm Hk st. destruct (Hm st) as (evs1 & Hst1 & Hc1 & Hr1).
  unfold bind. destruct (m st) as [[a | e1] st1] eqn:E; simpl in *.
  - destruct (Hk a st1) as (evs2 & Hst2 & Hc2 & Hr2).
    exists (evs1 ++ evs2)%list. subst st1. simpl in *.
    split; [by rewrite Hst2, app_assoc|]. split; [by apply Forall_app|].
    intros ev e [Hin | Hin]%elem_of_app Hev; [|by eauto].
    by specialize (Hr1 _ _ Hin Hev).
  - exists evs1. split; [done|]. split; [done|].
    intros ev e Hin Hev. specialize (Hr1 _ _ Hin Hev). by simplify_eq.
Qed.

Lemma tame_try_except {A} yt (body : M A) (handler : exn -> A) :
  tame yt body ->
  forall st, exists evs,
    (try_except body (fun e => ret (handler e)) st).2
      = {| ytmusic := ytmusic st; log := log st ++ evs |} /\
    Forall (fun ev => is_construct ev = false) evs /\
    (exists r, (try_except body (fun e => ret (handler e)) st).1 = Return r) /\
    forall ev e, ev ∈ evs -> raised_by yt ev = Some e ->
      (try_except body (fun e => ret (handler e)) st).1 = Return (handler e).
Proof.
  intros Hb st. destruct (Hb st) as (evs & Hst & Hc & Hr).
  exists evs. unfold try_except, ret.
  destruct (body st) as [[a | e1] st1] eqn:E; simpl in *.
  - repeat split; [done | done | by eexists |].
    intros ev e Hin Hev. by specialize (Hr _ _ Hin Hev).
  - repeat split; [done | done | by eexists |].
    intros ev e Hin Hev. specialize (Hr _ _ Hin Hev). by simplify_eq.
Qed.

Lemma tame_call_get_mood_categories yt : tame yt (call_get_mood_categories yt).
Proof.
  intros st. exists [GetMoodCategories]. repeat split.
  - by repeat constructor.
  - intros ev e ->%list_elem_of_singleton. simpl. unfold call_get_mood_categories.
    unfold_monad. simpl. by destruct (get_mood_categories yt); intros [= ->].
Qed.

Lemma tame_call_get_mood_playlists yt p : tame yt (call_get_mood_playlists yt p).
Proof.
  intros st. exists [GetMoodPlaylists p]. repeat split.
  - by repeat constructor.
  - intros ev e ->%list_elem_of_singleton. simpl. unfold call_get_mood_playlists.
    unfold_monad. simpl. by destruct (get_mood_playlists yt p); intros [= ->].
Qed.

Lemma tame_call_search yt q limit : tame yt (call_search yt q limit).
Proof.
  intros st. exists [Search q limit]. repeat split.
  - by repeat constructor.
  - intros ev e ->%list_elem_of_singleton. simpl. unfold call_search.
    unfold_monad. simpl. by destruct (search yt q limit); intros [= ->].
Qed.

Create HintDb tame.
#[local] Hint Resolve tame_pure tame_ret tame_call_get_mood_categories
  tame_call_get_mood_playlists tame_call_search : tame.

Lemma tame_scan_items yt target limit items playlists :
  tame yt (Netlify.scan_items yt target limit items playlists).
Proof.
  revert playlists. induction items as [|item rest IH]; intros playlists; simpl.
  - auto with tame.
  - apply tame_bind; [auto with tame|]. intros item_title.
    destruct (py_in target item_title); [|apply IH].
    apply tame_bind; [auto with tame|]. intros p.
    apply tame_bind; [auto with tame|]. intros mood_playlists. apply IH.
Qed.

Lemma tame_scan_categories yt target limit cats playlists :
  tame yt (Netlify.scan_categories yt target limit cats playlists).
Proof.
  revert playlists. induction cats as [|[name items] rest IH]; intros playlists; simpl.
  - auto with tame.
  - apply tame_bind; [apply tame_scan_items|]. intros playlists'. apply IH.
Qed.

(** *** The handle getter *)

Lemma bind_run {A B} (m : M A) (k : A -> M B) (st : State) :
  bind m k st = match m st with
                | (Return a, st') => k a st'
                | (Raise e, st') => (Raise e, st')
                end.
Proof. reflexivity. Qed.

Lemma constructions_app (st : State) (evs : list event) o :
  constructions {| ytmusic := o; log := log st ++ evs |} =
  (constructions st + length (filter (fun e => is_construct e = true) evs))%nat.
Proof. unfold constructions. simpl. by rewrite filter_app, length_app. Qed.

Lemma constructions_calls (st : State) (evs : list event) o :
  Forall (fun ev => is_construct ev = false) evs ->
  constructions {| ytmusic := o; log := log st ++ evs |} = constructions st.
Proof.
  intros Hc. unfold constructions. simpl. rewrite filter_app, length_app.
  induction Hc as [|ev evs Hev _ IH]; simpl; [lia|].
  rewrite filter_cons. destruct (decide (is_construct ev = true)); [congruence|done].
Qed.

Lemma netlify_get_ytmusic_memo new st yt :
  ytmusic st = Some yt -> Netlify.get_ytmusic new st = (Return yt, st).
Proof. intros H. unfold Netlify.get_ytmusic. unfold_monad. by rewrite H. Qed.

Lemma netlify_get_ytmusic_fresh new st :
  ytmusic st = None ->
  Netlify.get_ytmusic new st =
  match new (constructions st) with
  | Return yt => (Return yt, {| ytmusic := Some yt; log := log st ++ [Construct] |})
  | Raise e => (Raise e, {| ytmusic := None; log := log st ++ [Construct] |})
  end.
Proof.
  intros H. unfold Netlify.get_ytmusic. unfold_monad. rewrite H.
  destruct (new (constructions st)); simpl; by rewrite ?H.
Qed.

Lemma server_get_ytmusic_memo av new st yt :
  ytmusic st = Some yt -> Server.get_ytmusic av new st = (Return (Some yt), st).
Proof. intros H. unfold Server.get_ytmusic. unfold_monad. by rewrite H. Qed.

Lemma server_get_ytmusic_fresh new st :
  ytmusic st = None ->
  Server.get_ytmusic true new st =
  match new (constructions st) with
  | Return yt => (Return (Some yt), {| ytmusic := Some yt; log := log st ++ [Construct] |})
  | Raise e => (Raise e, {| ytmusic := None; log := log st ++ [Construct] |})
  end.
Proof.
  intros H. unfold Server.get_ytmusic. unfold_monad. rewrite H.
  destruct (new (constructions st)); simpl; by rewrite ?H.
Qed.

Lemma server_get_ytmusic_unavailable new st :
  ytmusic st = None -> Server.get_ytmusic false new st = (Return None, st).
Proof. intros H. unfold Server.get_ytmusic. unfold_monad. by rewrite H. Qed.

(** Whatever [get_ytmusic] returns, it appended at most the construction
    to the log, and a handle it returns is the one in the global. *)
Lemma netlify_get_ytmusic_log new st :
  exists evs, log (Netlify.get_ytmusic new st).2 = (log st ++ evs)%list /\
    (forall ev, ev ∈ evs -> ev = Construct) /\
    (forall yt, (Netlify.get_ytmusic new st).1 = Return yt ->
                ytmusic (Netlify.get_ytmusic new st).2 = Some yt).
Proof.
  destruct (ytmusic st) as [yt|] eqn:E.
  - rewrite (netlify_get_ytmusic_memo _ _ _ E). exists []. simpl.
    rewrite app_nil_r. split; [done|]. split; [by intros ev ?%elem_of_nil|].
    by intros ? [= <-].
  - rewrite (netlify_get_ytmusic_fresh _ _ E). exists [Construct].
    destruct (new (constructions st)); simpl;
      (split; [done|]; split; [by intros ev ->%list_elem_of_singleton|]);
      by intros ? [= <-].
Qed.

Lemma server_get_ytmusic_log av new st :
  exists evs, log (Server.get_ytmusic av new st).2 = (log st ++ evs)%list /\
    (forall ev, ev ∈ evs -> ev = Construct) /\
    (forall yt, (Server.get_ytmusic av new st).1 = Return (Some yt) ->
                ytmusic (Server.get_ytmusic av new st).2 = Some yt).
Proof.
  destruct (ytmusic st) as [yt|] eqn:E.
  - rewrite (server_get_ytmusic_memo _ _ _ _ E). exists []. simpl.
    rewrite app_nil_r. split; [done|]. split; [by intros ev ?%elem_of_nil|].
    by intros ? [= <-].
  - destruct av.
    + rewrite (server_get_ytmusic_fresh _ _ E). exists [Construct].
      destruct (new (constructions st)); simpl;
        (split; [done|]; split; [by intros ev ->%list_elem_of_singleton|]);
        by intros ? [= <-].
    + rewrite (server_get_ytmusic_unavailable _ _ E). exists []. simpl.
      rewrite app_nil_r. split; [done|]. split; [by intros ev ?%elem_of_nil|done].
Qed.

(** *** The adapter operations once the handle is there *)

Ltac tame_body :=
  repeat first
    [ solve [auto with tame]
    | apply tame_scan_categories
    | apply tame_bind; [|intros ?]
    | match goal with |- tame _ (if ?b then _ else _) => destruct b end ].

Lemma netlify_fetch_answers new mood limit st yt st1 :
  Netlify.get_ytmusic new st = (Return yt, st1) ->
  answers yt st1 (Netlify.fetch_mood_playlists new mood limit st).
Proof.
  intros H. unfold Netlify.fetch_mood_playlists. rewrite bind_run, H.
  apply tame_try_except with (handler := fun e => ErrorDict (str_exn e)). tame_body.
Qed.

Lemma netlify_search_answers new query limit st yt st1 :
  Netlify.get_ytmusic new st = (Return yt, st1) ->
  answers yt st1 (Netlify.search_playlists new query limit st).
Proof.
  intros H. unfold Netlify.search_playlists. rewrite bind_run, H.
  apply tame_try_except with (handler := fun e => ErrorDict (str_exn e)). tame_body.
Qed.

Lemma netlify_moods_answers new st yt st1 :
  Netlify.get_ytmusic new st = (Return yt, st1) ->
  answers yt st1 (Netlify.get_available_moods new st).
Proof.
  intros H. unfold Netlify.get_available_moods. rewrite bind_run, H.
  apply tame_try_except with (handler := fun e => ErrorDict (str_exn e)). tame_body.
Qed.

Lemma server_fetch_answers av new mood limit st yt st1 :
  Server.get_ytmusic av new st = (Return (Some yt), st1) ->
  answers yt st1 (Server.fetch_mood_playlists av new mood limit st).
Proof.
  intros H. unfold Server.fetch_mood_playlists. rewrite bind_run, H.
  apply tame_try_except with (handler := fun e => ErrorDict (str_exn e)). tame_body.
Qed.

Lemma server_search_answers av new query limit st yt st1 :
  Server.get_ytmusic av new st = (Return (Some yt), st1) ->
  answers yt st1 (Server.search_playlists av new query limit st).
Proof.
  intros H. unfold Server.search_playlists. rewrite bind_run, H.
  apply tame_try_except with (handler := fun e => ErrorDict (str_exn e)). tame_body.
Qed.

Lemma server_moods_answers av new st yt st1 :
  Server.get_ytmusic av new st = (Return (Some yt), st1) ->
  answers yt st1 (Server.get_available_moods av new st).
Proof.
  intros H. unfold Server.get_available_moods. rewrite bind_run, H.
  apply tame_try_except with (handler := fun e => ErrorDict (str_exn e)). tame_body.
Qed.

(** An exception of [get_ytmusic] leaves the operation as it is. *)
Lemma netlify_ops_propagate new st e st1 :
  Netlify.get_ytmusic new st = (Raise e, st1) ->
  (forall mood limit, Netlify.fetch_mood_playlists new mood limit st = (Raise e, st1)) /\
  (forall query limit, Netlify.search_playlists new query limit st = (Raise e, st1)) /\
  Netlify.get_available_moods new st = (Raise e, st1).
Proof.
  intros H. repeat split; intros;
    unfold Netlify.fetch_mood_playlists, Netlify.search_playlists,
      Netlify.get_available_moods; by rewrite bind_run, H.
Qed.

Lemma server_ops_propagate av new st e st1 :
  Server.get_ytmusic av new st = (Raise e, st1) ->
  (forall mood limit, Server.fetch_mood_playlists av new mood limit st = (Raise e, st1)) /\
  (forall query limit, Server.search_playlists av new query limit st = (Raise e, st1)) /\
  Server.get_available_moods av new st = (Raise e, st1).
Proof.
  intros H. repeat split; intros;
    unfold Server.fetch_mood_playlists, Server.search_playlists,
      Server.get_available_moods; by rewrite bind_run, H.
Qed.

Lemma server_ops_unavailable av new st st1 :
  Server.get_ytmusic av new st = (Return None, st1) ->
  (forall mood limit, Server.fetch_mood_playlists av new mood limit st
                      = (Return (ErrorDict "ytmusicapi not available"), st1)) /\
  (forall query limit, Server.search_playlists av new query limit st
                       = (Return (ErrorDict "ytmusicapi not available"), st1)) /\
  Server.get_available_moods av new st
  = (Return (ErrorDict "ytmusicapi not available"), st1).
Proof.
  intros H. repeat split; intros;
    unfold Server.fetch_mood_playlists, Server.search_playlists,
      Server.get_available_moods; by rewrite bind_run, H.
Qed.

(** *** Exceptions of the client library *)

Lemma answers_reported {A} yt st st1 evs0 (r : outcome (adapter_result A) * State) :
  log st1 = (log st ++ evs0)%list ->
  (forall ev, ev ∈ evs0 -> ev = Construct) ->
  answers yt st1 r -> reported yt st r.
Proof.
  intros Hlog Hc (evs & Hst & _ & Hret & Herr). split; [done|].
  rewrite Hst. simpl. rewrite Hlog, <- app_assoc, drop_app_length.
  intros ev e [Hin | Hin]%elem_of_app Hev; [|by eauto].
  by rewrite (Hc _ Hin) in Hev.
Qed.

Lemma netlify_outcomes new st :
  (forall mood limit,
      netlify_outcome new st (Netlify.fetch_mood_playlists new mood limit st)) /\
  (forall query limit,
      netlify_outcome new st (Netlify.search_playlists new query limit st)) /\
  netlify_outcome new st (Netlify.get_available_moods new st).
Proof.
  destruct (netlify_get_ytmusic_log new st) as (evs0 & Hlog & Hc & _).
  unfold netlify_outcome.
  destruct (Netlify.get_ytmusic new st) as [[yt | e] st1] eqn:E; simpl in *.
  - split_and!; intros; apply (answers_reported yt st st1 evs0 _ Hlog Hc).
    + by apply netlify_fetch_answers.
    + by apply netlify_search_answers.
    + by apply netlify_moods_answers.
  - destruct (netlify_ops_propagate _ _ _ _ E) as (Hf & Hs & Hm).
    split_and!; intros; by rewrite ?Hf, ?Hs, ?Hm.
Qed.

Lemma server_outcomes av new st :
  (forall mood limit,
      server_outcome av new st (Server.fetch_mood_playlists av new mood limit st)) /\
  (forall query limit,
      server_outcome av new st (Server.search_playlists av new query limit st)) /\
  server_outcome av new st (Server.get_available_moods av new st).
Proof.
  destruct (server_get_ytmusic_log av new st) as (evs0 & Hlog & Hc & _).
  unfold server_outcome.
  destruct (Server.get_ytmusic av new st) as [[[yt|] | e] st1] eqn:E; simpl in *.
  - split_and!; intros; apply (answers_reported yt st st1 evs0 _ Hlog Hc).
    + by apply server_fetch_answers.
    + by apply server_search_answers.
    + by apply server_moods_answers.
  - destruct (server_ops_unavailable _ _ _ _ E) as (Hf & Hs & Hm).
    split_and!; intros; by rewrite ?Hf, ?Hs, ?Hm.
  - destruct (server_ops_propagate _ _ _ _ _ E) as (Hf & Hs & Hm).
    split_and!; intros; by rewrite ?Hf, ?Hs, ?Hm.
Qed.

(** C2, as the code has it: an exception raised by [YTMusic()] on the way
    into an operation leaves the operation uncaught, in all six of them;
    once [get_ytmusic] has handed out the handle, the operation returns,
    and a method call that raised [e] gives [{"error": str(e)}]. *)
Theorem method_errors_are_reported :
  forall (av : bool) (new : nat -> outcome YTMusic) (st : State),
    (forall mood limit,
        netlify_outcome new st (Netlify.fetch_mood_playlists new mood limit st)) /\
    (forall query limit,
        netlify_outcome new st (Netlify.search_playlists new query limit st)) /\
    netlify_outcome new st (Netlify.get_available_moods new st) /\
    (forall mood limit,
        server_outcome av new st (Server.fetch_mood_playlists av new mood limit st)) /\
    (forall query limit,
        server_outcome av new st (Server.search_playlists av new query limit st)) /\
    server_outcome av new st (Server.get_available_moods av new st).
Proof.
  intros av new st.
  destruct (netlify_outcomes new st) as (H1 & H2 & H3).
  destruct (server_outcomes av new st) as (H4 & H5 & H6).
  auto 10.
Qed.

(** C2 fails as stated: with the network down at first use, every
    operation of both files raises instead of returning an error dict. *)
Lemma construction_error_escapes :
  (Netlify.fetch_mood_playlists offline "party" 10 initial).1
    = Raise (Exn ClientError "Failed to establish a new connection") /\
  (Netlify.search_playlists offline "jazz" 10 initial).1
    = Raise (Exn ClientError "Failed to establish a new connection") /\
  (Netlify.get_available_moods offline initial).1
    = Raise (Exn ClientError "Failed to establish a new connection") /\
  (Server.fetch_mood_playlists true offline "party" 10 initial).1
    = Raise (Exn ClientError "Failed to establish a new connection") /\
  (Server.search_playlists true offline "jazz" 10 initial).1
    = Raise (Exn ClientError "Failed to establish a new connection") /\
  (Server.get_available_moods true offline initial).1
    = Raise (Exn ClientError "Failed to establish a new connection").
Proof. repeat split; reflexivity. Qed.

(** *** One handle per process *)

Lemma answers_keep {A} yt st (r : outcome (adapter_result A) * State) :
  ytmusic st = Some yt -> answers yt st r ->
  ytmusic r.2 = Some yt /\ constructions r.2 = constructions st.
Proof.
  intros Hyt (evs & -> & Hc & _). simpl. split; [done|].
  by apply constructions_calls.
Qed.

Lemma netlify_handler_keeps new event st yt :
  ytmusic st = Some yt ->
  ytmusic (Netlify.handler new event st).2 = Some yt /\
  constructions (Netlify.handler new event st).2 = constructions st.
Proof.
  intros Hyt. unfold Netlify.handler. rewrite bind_run.
  destruct (parse_limit_range (default "10" (default ∅ event !! "limit")))
    as (n & Hn & _).
  unfold Netlify.request_limit, lift. rewrite Hn.
  pose proof (netlify_get_ytmusic_memo new st yt Hyt) as Hget.
  rewrite !bind_run.
  repeat match goal with |- context [if ?b then _ else _] => destruct b end;
    try done; rewrite bind_run.
  - destruct (answers_keep yt st _ Hyt (netlify_moods_answers new st yt st Hget)).
    by destruct (Netlify.get_available_moods new st) as [[?|?] ?].
  - destruct (answers_keep yt st _ Hyt
                (netlify_fetch_answers new
                   (default "party" (default ∅ event !! "mood")) n st yt st Hget)).
    by destruct (Netlify.fetch_mood_playlists new _ n st) as [[?|?] ?].
  - destruct (answers_keep yt st _ Hyt
                (netlify_search_answers new
                   (default "" (default ∅ event !! "q")) n st yt st Hget)).
    by destruct (Netlify.search_playlists new _ n st) as [[?|?] ?].
Qed.

Lemma server_handle_api_keeps av new params st yt :
  ytmusic st = Some yt ->
  ytmusic (Server.handle_api av new params st).2 = Some yt /\
  constructions (Server.handle_api av new params st).2 = constructions st.
Proof.
  intros Hyt. unfold Server.handle_api. rewrite bind_run.
  destruct (parse_limit_range (Server.param params "limit" "10")) as (n & Hn & _).
  unfold Server.request_limit, lift. rewrite Hn.
  pose proof (server_get_ytmusic_memo av new st yt Hyt) as Hget.
  rewrite !bind_run.
  repeat match goal with |- context [if ?b then _ else _] => destruct b end;
    try done; rewrite bind_run.
  - destruct (answers_keep yt st _ Hyt (server_moods_answers av new st yt st Hget)).
    by destruct (Server.get_available_moods av new st) as [[?|?] ?].
  - destruct (answers_keep yt st _ Hyt
                (server_fetch_answers av new
                   (Server.param params "mood" "party") n st yt st Hget)).
    by destruct (Server.fetch_mood_playlists av new _ n st) as [[?|?] ?].
  - destruct (answers_keep yt st _ Hyt
                (server_search_answers av new
                   (Server.param params "q" "") n st yt st Hget)).
    by destruct (Server.search_playlists av new _ n st) as [[?|?] ?].
Qed.

Lemma netlify_serve_keeps new events st yt :
  ytmusic st = Some yt ->
  ytmusic (Netlify.serve new events st) = Some yt /\
  constructions (Netlify.serve new events st) = constructions st.
Proof.
  revert st. induction events as [|event rest IH]; intros st Hyt; [done|].
  destruct (netlify_handler_keeps new event st yt Hyt) as (Hk & Hn).
  destruct (IH _ Hk) as (IH1 & IH2). simpl. split; [done|]. by rewrite <- Hn.
Qed.

Lemma server_serve_keeps av new requests st yt :
  ytmusic st = Some yt ->
  ytmusic (Server.serve av new requests st) = Some yt /\
  constructions (Server.serve av new requests st) = constructions st.
Proof.
  revert st. induction requests as [|params rest IH]; intros st Hyt; [done|].
  destruct (server_handle_api_keeps av new params st yt Hyt) as (Hk & Hn).
  destruct (IH _ Hk) as (IH1 & IH2). simpl. split; [done|]. by rewrite <- Hn.
Qed.

(** C8, as the code has it: [get_ytmusic] evaluates [YTMusic()] only when
    the global holds no handle, and then exactly once; a success is
    stored, a failure stores nothing.  From a state that holds a handle,
    whatever requests the process serves, that handle stays and
    [YTMusic()] is not evaluated again. *)
Theorem handle_built_once :
  forall (av : bool) (new : nat -> outcome YTMusic),
    (forall st yt, ytmusic st = Some yt ->
        Netlify.get_ytmusic new st = (Return yt, st) /\
        Server.get_ytmusic av new st = (Return (Some yt), st)) /\
    (forall st, ytmusic st = None ->
        (Netlify.get_ytmusic new st).1 = new (constructions st) /\
        constructions (Netlify.get_ytmusic new st).2 = S (constructions st) /\
        ytmusic (Netlify.get_ytmusic new st).2 =
          match new (constructions st) with Return yt => Some yt | Raise _ => None end) /\
    (forall st, ytmusic st = None ->
        (Server.get_ytmusic true new st).1 =
          match new (constructions st) with
          | Return yt => Return (Some yt)
          | Raise e => Raise e
          end /\
        constructions (Server.get_ytmusic true new st).2 = S (constructions st) /\
        ytmusic (Server.get_ytmusic true new st).2 =
          match new (constructions st) with Return yt => Some yt | Raise _ => None end) /\
    (forall st yt events, ytmusic st = Some yt ->
        ytmusic (Netlify.serve new events st) = Some yt /\
        constructions (Netlify.serve new events st) = constructions st) /\
    (forall st yt requests, ytmusic st = Some yt ->
        ytmusic (Server.serve av new requests st) = Some yt /\
        constructions (Server.serve av new requests st) = constructions st).
Proof.
  intros av new. split_and!.
  - intros st yt Hyt. split.
    + by apply netlify_get_ytmusic_memo.
    + by apply server_get_ytmusic_memo.
  - intros st Hno. rewrite (netlify_get_ytmusic_fresh _ _ Hno).
    destruct (new (constructions st)); simpl; split_and!; try done;
      rewrite constructions_app; simpl; lia.
  - intros st Hno. rewrite (server_get_ytmusic_fresh _ _ Hno).
    destruct (new (constructions st)); simpl; split_and!; try done;
      rewrite constructions_app; simpl; lia.
  - intros st yt events Hyt. by apply netlify_serve_keeps.
  - intros st yt requests Hyt. by apply server_serve_keeps.
Qed.

Lemma handle_built_once_witness :
  ytmusic (Netlify.serve offline [None; Some {[ "action" := "browse" ]}] warm)
    = Some demo_client /\
  constructions (Netlify.serve offline [None; Some {[ "action" := "browse" ]}] warm)
    = constructions warm.
Proof.
  destruct (handle_built_once true offline) as (_ & _ & _ & H & _).
  apply H. reflexivity.
Defined.

(** C8 fails as stated: a failed construction is not remembered, so the
    next request evaluates [YTMusic()] again; two requests on a host
    without network make two attempts in one process. *)
Lemma construction_retried_after_failure :
  constructions (Netlify.serve offline [None; None] initial) = 2%nat /\
  constructions (Server.serve true offline [∅; ∅] initial) = 2%nat.
Proof. split; reflexivity. Qed.

(** *** The dev server without ytmusicapi *)

Lemma server_unavailable_request new params st :
  ytmusic st = None -> (Server.handle_api false new params st).2 = st.
Proof.
  intros Hno. unfold Server.handle_api. rewrite bind_run.
  destruct (parse_limit_range (Server.param params "limit" "10")) as (n & Hn & _).
  unfold Server.request_limit, lift. rewrite Hn.
  destruct (server_ops_unavailable false new st st
              (server_get_ytmusic_unavailable new st Hno)) as (Hf & Hs & Hm).
  rewrite !bind_run.
  repeat match goal with |- context [if ?b then _ else _] => destruct b end;
    try done; by rewrite bind_run, ?Hf, ?Hs, ?Hm.
Qed.

Lemma server_unavailable_serve new requests :
  Server.serve false new requests initial = initial.
Proof.
  assert (forall st, ytmusic st = None -> Server.serve false new requests st = st) as H.
  { induction requests as [|params rest IH]; intros st Hno; [done|]. simpl.
    rewrite (server_unavailable_request new params st Hno). by apply IH. }
  by apply H.
Qed.

(** C10: when the import of ytmusicapi failed at start-up, then at every
    point of the dev server's life each adapter operation returns
    [{"error": "ytmusicapi not available"}]; it does not raise, and the
    process has never constructed a client nor called one. *)
Theorem unavailable_library_is_reported :
  forall (new : nat -> outcome YTMusic) (requests : list (gmap string Server.qs_values))
         (mood query : string) (limit : Z),
    log (Server.serve false new requests initial) = [] /\
    Server.fetch_mood_playlists false new mood limit (Server.serve false new requests initial)
      = (Return (ErrorDict "ytmusicapi not available"),
         Server.serve false new requests initial) /\
    Server.search_playlists false new query limit (Server.serve false new requests initial)
      = (Return (ErrorDict "ytmusicapi not available"),
         Server.serve false new requests initial) /\
    Server.get_available_moods false new (Server.serve false new requests initial)
      = (Return (ErrorDict "ytmusicapi not available"),
         Server.serve false new requests initial).
Proof.
  intros new requests mood query limit. rewrite server_unavailable_serve.
  destruct (server_ops_unavailable false new initial initial
              (server_get_ytmusic_unavailable new initial eq_refl)) as (Hf & Hs & Hm).
  by rewrite Hf, Hs, Hm.
Qed.

(** *** The limit on the number of playlists *)

Lemma netlify_add_playlists_bound limit group_playlists playlists :
  Z.of_nat (length playlists) <= limit ->
  Z.of_nat (length (Netlify.add_playlists limit group_playlists playlists)) <= limit.
Proof.
  revert playlists. induction group_playlists as [|p rest IH]; intros playlists Hle;
    simpl; [done|].
  destruct (Z.geb_spec (Z.of_nat (length playlists)) limit); [done|].
  apply IH. rewrite length_app. simpl. lia.
Qed.

Lemma netlify_add_groups_bound limit mood_playlists playlists :
  Z.of_nat (length playlists) <= limit ->
  Z.of_nat (length (Netlify.add_groups limit mood_playlists playlists)) <= limit.
Proof.
  unfold Netlify.add_groups. revert playlists.
  induction mood_playlists as [|g rest IH]; intros playlists Hle; simpl; [done|].
  by apply IH, netlify_add_playlists_bound.
Qed.

Lemma netlify_scan_items_bound yt target limit items playlists st l :
  Z.of_nat (length playlists) <= limit ->
  (Netlify.scan_items yt target limit items playlists st).1 = Return l ->
  Z.of_nat (length l) <= limit.
Proof.
  revert playlists st. induction items as [|item rest IH]; intros playlists st Hle; simpl.
  - by intros [= <-].
  - rewrite bind_run. unfold lift at 1.
    destruct (py_lower _) as [item_title | e]; [|done].
    destruct (py_in target item_title); [|by apply IH].
    rewrite bind_run. unfold lift at 1.
    destruct (Netlify.subscript_params item) as [p | e]; [|done].
    rewrite bind_run.
    destruct (call_get_mood_playlists yt p st) as [[mood_playlists | e] st'] eqn:E;
      [|done].
    by apply IH, netlify_add_groups_bound.
Qed.

Lemma netlify_scan_categories_bound yt target limit cats playlists st l :
  Z.of_nat (length playlists) <= limit ->
  (Netlify.scan_categories yt target limit cats playlists st).1 = Return l ->
  Z.of_nat (length l) <= limit.
Proof.
  revert playlists st. induction cats as [|[name items] rest IH];
    intros playlists st Hle; simpl.
  - by intros [= <-].
  - rewrite bind_run.
    destruct (Netlify.scan_items yt target limit items playlists st)
      as [[playlists' | e] st'] eqn:E; [|done].
    apply IH. eapply netlify_scan_items_bound; [done|]. by rewrite E.
Qed.

Lemma netlify_fetch_bound new mood limit st l :
  0 <= limit ->
  (Netlify.fetch_mood_playlists new mood limit st).1 = Return (Items l) ->
  Z.of_nat (length l) <= limit.
Proof.
  intros Hlim. unfold Netlify.fetch_mood_playlists. rewrite bind_run.
  destruct (Netlify.get_ytmusic new st) as [[yt | e] st1]; [|done].
  unfold try_except. rewrite bind_run.
  destruct (call_get_mood_categories yt st1) as [[cats | e] st2]; [|done].
  rewrite bind_run.
  destruct (Netlify.scan_categories yt _ limit cats [] st2) as [[ps | e] st3] eqn:E;
    [|done].
  intros [= <-]. eapply netlify_scan_categories_bound; [|by rewrite E]. simpl. lia.
Qed.

Lemma server_add_playlists_bound limit group_playlists playlists :
  Z.of_nat (length playlists) <= limit ->
  Z.of_nat (length (Server.add_playlists limit group_playlists playlists)) <= limit.
Proof.
  revert playlists. induction group_playlists as [|p rest IH]; intros playlists Hle;
    simpl; [done|].
  destruct (Z.geb_spec (Z.of_nat (length playlists)) limit); [done|].
  destruct (Server.invalid_id _); [by apply IH|].
  apply IH. rewrite length_app. simpl. lia.
Qed.

Lemma server_add_groups_bound limit mood_playlists playlists :
  Z.of_nat (length playlists) <= limit ->
  Z.of_nat (length (Server.add_groups limit mood_playlists playlists)) <= limit.
Proof.
  unfold Server.add_groups. revert playlists.
  induction mood_playlists as [|g rest IH]; intros playlists Hle; simpl; [done|].
  by apply IH, server_add_playlists_bound.
Qed.

Lemma server_fetch_bound av new mood limit st l :
  0 <= limit ->
  (Server.fetch_mood_playlists av new mood limit st).1 = Return (Items l) ->
  Z.of_nat (length l) <= limit.
Proof.
  intros Hlim. unfold Server.fetch_mood_playlists. rewrite bind_run.
  destruct (Server.get_ytmusic av new st) as [[[yt|] | e] st1]; [|done|done].
  unfold try_except. rewrite bind_run.
  destruct (call_get_mood_categories yt st1) as [[cats | e] st2]; [|done].
  rewrite bind_run. unfold lift at 1.
  destruct (Server.match_categories _ cats PNone) as [m | e]; [|done].
  destruct (truthy (Server.fallback cats m)).
  - rewrite bind_run.
    destruct (call_get_mood_playlists yt _ st2) as [[groups | e] st3]; [|done].
    intros [= <-]. apply server_add_groups_bound. simpl. lia.
  - intros [= <-]. simpl. lia.
Qed.

Lemma netlify_collect_results_length results playlists :
  (length (Netlify.collect_results results playlists)
   <= length playlists + length results)%nat.
Proof.
  revert playlists. induction results as [|item rest IH]; intros playlists; simpl; [lia|].
  destruct (bool_decide _).
  - etrans; [apply IH|]. rewrite length_app. simpl. lia.
  - etrans; [apply IH|]. lia.
Qed.

Lemma server_collect_results_length results playlists :
  (length (Server.collect_results results playlists)
   <= length playlists + length results)%nat.
Proof.
  revert playlists. induction results as [|item rest IH]; intros playlists; simpl; [lia|].
  destruct (bool_decide _); [destruct (Server.invalid_search_id _)|].
  - etrans; [apply IH|]. lia.
  - etrans; [apply IH|]. rewrite length_app. simpl. lia.
  - etrans; [apply IH|]. lia.
Qed.

Lemma netlify_search_length new query limit st yt l :
  (Netlify.get_ytmusic new st).1 = Return yt ->
  (Netlify.search_playlists new query limit st).1 = Return (Items l) ->
  exists results, search yt query limit = Return results /\
                  (length l <= length results)%nat.
Proof.
  unfold Netlify.search_playlists. rewrite bind_run.
  destruct (Netlify.get_ytmusic new st) as [[yt' | e] st1]; [|done].
  intros [= ->]. unfold try_except, call_search. rewrite !bind_run. unfold emit, lift.
  destruct (search yt query limit) as [results | e]; [|done].
  intros [= <-]. exists results. split; [done|].
  apply (netlify_collect_results_length results []).
Qed.

Lemma server_search_length av new query limit st yt l :
  (Server.get_ytmusic av new st).1 = Return (Some yt) ->
  (Server.search_playlists av new query limit st).1 = Return (Items l) ->
  exists results, search yt query limit = Return results /\
                  (length l <= length results)%nat.
Proof.
  unfold Server.search_playlists. rewrite bind_run.
  destruct (Server.get_ytmusic av new st) as [[[yt'|] | e] st1]; [|done|done].
  intros [= ->]. unfold try_except, call_search. rewrite !bind_run. unfold emit, lift.
  destruct (search yt query limit) as [results | e]; [|done].
  intros [= <-]. exists results. split; [done|].
  apply (server_collect_results_length results []).
Qed.

Lemma netlify_browse_request_bound new params st resp l :
  params !! "action" = Some "browse" ->
  (Netlify.handler new (Some params) st).1 = Return resp ->
  body resp = ResPlaylists (Items l) ->
  exists n, Netlify.request_limit params = Return n /\ Z.of_nat (length l) <= n.
Proof.
  intros Ha. unfold Netlify.handler. simpl. rewrite bind_run.
  destruct (parse_limit_range (default "10" (params !! "limit"))) as (n & Hn & Hr).
  unfold Netlify.request_limit, lift. rewrite Hn, Ha. simpl. rewrite !bind_run.
  destruct (Netlify.fetch_mood_playlists new _ n st) as [[r | e] st1] eqn:E; [|done].
  intros [= <-]. simpl. intros [= ->]. exists n. split; [done|].
  eapply netlify_fetch_bound; [lia|]. by rewrite E.
Qed.

Lemma server_browse_request_bound av new params st resp l :
  Server.first <$> params !! "action" = Some "browse" ->
  (Server.handle_api av new params st).1 = Return resp ->
  body resp = ResPlaylists (Items l) ->
  exists n, Server.request_limit params = Return n /\ Z.of_nat (length l) <= n.
Proof.
  intros Ha. unfold Server.handle_api. rewrite bind_run.
  destruct (parse_limit_range (Server.param params "limit" "10")) as (n & Hn & Hr).
  unfold Server.request_limit, lift. rewrite Hn.
  assert (Server.param params "action" "moods" = "browse") as ->.
  { unfold Server.param. destruct (params !! "action"); by simplify_eq/=. }
  simpl. rewrite !bind_run.
  destruct (Server.fetch_mood_playlists av new _ n st) as [[r | e] st1] eqn:E; [|done].
  intros [= <-]. simpl. intros [= ->]. exists n. split; [done|].
  eapply server_fetch_bound; [lia|]. by rewrite E.
Qed.

(** C5, as the code has it: a browse request answered with a list returns
    at most as many playlists as its effective limit, in both routers,
    however many records the upstream holds.  Search does not truncate:
    its list has at most one entry per record the upstream [search] call
    returned. *)
Theorem playlists_within_limit :
  forall (av : bool) (new : nat -> outcome YTMusic) (st : State),
    (forall params resp l,
        params !! "action" = Some "browse" ->
        (Netlify.handler new (Some params) st).1 = Return resp ->
        body resp = ResPlaylists (Items l) ->
        exists n, Netlify.request_limit params = Return n /\ Z.of_nat (length l) <= n) /\
    (forall params resp l,
        Server.first <$> params !! "action" = Some "browse" ->
        (Server.handle_api av new params st).1 = Return resp ->
        body resp = ResPlaylists (Items l) ->
        exists n, Server.request_limit params = Return n /\ Z.of_nat (length l) <= n) /\
    (forall query limit yt l,
        (Netlify.get_ytmusic new st).1 = Return yt ->
        (Netlify.search_playlists new query limit st).1 = Return (Items l) ->
        exists results, search yt query limit = Return results /\
                        (length l <= length results)%nat) /\
    (forall query limit yt l,
        (Server.get_ytmusic av new st).1 = Return (Some yt) ->
        (Server.search_playlists av new query limit st).1 = Return (Items l) ->
        exists results, search yt query limit = Return results /\
                        (length l <= length results)%nat).
Proof.
  intros av new st. split_and!; intros.
  - by eapply netlify_browse_request_bound.
  - by eapply server_browse_request_bound.
  - by eapply netlify_search_length.
  - by eapply server_search_length.
Qed.

Lemma playlists_within_limit_witness :
  exists n, Netlify.request_limit {[ "action" := "browse"; "limit" := "1" ]} = Return n /\
            Z.of_nat (length [Netlify.browse_summary (record "PL1")]) <= n.
Proof.
  destruct (playlists_within_limit true offline warm) as (H & _).
  eapply (H _ {| statusCode := 200;
                 body := ResPlaylists (Items [Netlify.browse_summary (record "PL1")]) |}).
  - reflexivity.
  - reflexivity.
  - reflexivity.
Defined.

(** C5 fails as stated: with [limit=1] and an upstream search that returns
    two playlists, both routers answer with two playlists. *)
Lemma search_exceeds_limit :
  (Netlify.request_limit {[ "action" := "search"; "q" := "jazz"; "limit" := "1" ]}
     = Return 1) /\
  ((length <$> playlists_of
      (Netlify.handler offline
         (Some {[ "action" := "search"; "q" := "jazz"; "limit" := "1" ]})
         {| ytmusic := Some two_hits; log := [] |})) = Some 2%nat) /\
  (Server.request_limit
     (query_string [("action", "search"); ("q", "jazz"); ("limit", "1")]) = Return 1) /\
  ((length <$> playlists_of
      (Server.handle_api true offline
         (query_string [("action", "search"); ("q", "jazz"); ("limit", "1")])
         {| ytmusic := Some two_hits; log := [] |})) = Some 2%nat).
Proof. split_and!; reflexivity. Qed.

(** *** Matching a mood against the taxonomy *)

Lemma append_nil (s : string) : "" ++ s = s.
Proof. reflexivity. Qed.

Lemma append_cons (a : ascii) (s t : string) : String a s ++ t = String a (s ++ t).
Proof. reflexivity. Qed.

Lemma prefix_nil (s : string) : String.prefix "" s = true.
Proof. by destruct s. Qed.

Lemma prefix_cons_nil (a : ascii) (s : string) : String.prefix (String a s) "" = false.
Proof. reflexivity. Qed.

Lemma prefix_cons (a b : ascii) (s t : string) :
  String.prefix (String a s) (String b t) =
  if ascii_dec a b then String.prefix s t else false.
Proof. reflexivity. Qed.

Lemma prefix_spec (s1 s2 : string) :
  String.prefix s1 s2 = true <-> exists post, s2 = s1 ++ post.
Proof.
  revert s2. induction s1 as [|a s1 IH]; intros s2.
  - rewrite prefix_nil. split; [intros _; by exists s2 | done].
  - destruct s2 as [|b s2].
    + rewrite prefix_cons_nil. split; [done | by intros (? & ?)].
    + rewrite prefix_cons. destruct (ascii_dec a b) as [-> | Hne].
      * rewrite IH. split; intros (post & H); exists post.
        -- by rewrite append_cons, H.
        -- rewrite append_cons in H. by simplify_eq.
      * split; [done|]. intros (post & H). rewrite append_cons in H. by simplify_eq.
Qed.

Lemma py_in_nil (needle : string) :
  py_in needle "" = String.prefix needle "" || false.
Proof. reflexivity. Qed.

Lemma py_in_cons (needle : string) (c : ascii) (hay : string) :
  py_in needle (String c hay) = String.prefix needle (String c hay) || py_in needle hay.
Proof. reflexivity. Qed.

Lemma py_in_spec (needle hay : string) :
  py_in needle hay = true <-> substring needle hay.
Proof.
  unfold substring. induction hay as [|c hay IH].
  - rewrite py_in_nil, orb_false_r, prefix_spec. split.
    + intros (post & H). by exists "", post.
    + intros (pre & post & H). exists post.
      destruct pre; [done|]. by rewrite append_cons in H.
  - rewrite py_in_cons, orb_true_iff, prefix_spec, IH. split.
    + intros [(post & H) | (pre & post & H)].
      * by exists "", post.
      * exists (String c pre), post. by rewrite append_cons, H.
    + intros (pre & post & H). destruct pre as [|c' pre].
      * left. by exists post.
      * right. exists pre, post. rewrite append_cons in H. by simplify_eq.
Qed.

Lemma server_match_items_step target item rest m t :
  get_or (MoodItem.title item) (PStr "") = PStr t ->
  Server.match_items target (item :: rest) m =
  if py_in target (lower t) || py_in (lower t) target
  then Return (get (MoodItem.params item))
  else Server.match_items target rest m.
Proof. intros H. simpl. by rewrite H. Qed.

Lemma server_match_items_none label items m :
  Forall (title_differs label) items ->
  Server.match_items (lower label) items m = Return m.
Proof.
  induction 1 as [|item rest (t & Ht & _ & Hn1 & Hn2) _ IH]; [done|].
  rewrite (server_match_items_step _ _ _ _ _ Ht).
  rewrite <- py_in_spec in Hn1, Hn2.
  apply not_true_is_false in Hn1, Hn2. by rewrite Hn1, Hn2.
Qed.





(** C4 at a failing input: the label ["chillout"] contains the title
    ["Chill"], so the item matches by the two-way test and the dev server
    fetches its playlists; the serverless handler only tests whether the
    title contains the label, finds no match, and fetches nothing. *)
Theorem netlify_matches_one_way :
  title_matches (resolved_label "chillout") (mood_item "Chill" "p-chill") /\
  log (Server.fetch_mood_playlists true offline "chillout" 10
         (holding (catalogue [("Genres", [mood_item "Rock" "p-rock"]);
                              ("Moods", [mood_item "Chill" "p-chill"])]))).2
  = [GetMoodCategories; GetMoodPlaylists (PStr "p-chill")] /\
  Netlify.fetch_mood_playlists offline "chillout" 10
    (holding (catalogue [("Genres", [mood_item "Rock" "p-rock"]);
                         ("Moods", [mood_item "Chill" "p-chill"])]))
  = (Return (Items []),
     {| ytmusic := Some (catalogue [("Genres", [mood_item "Rock" "p-rock"]);
                                    ("Moods", [mood_item "Chill" "p-chill"])]);
        log := [GetMoodCategories] |}).
Proof.
  split_and!; [|reflexivity|reflexivity].
  exists "Chill". split; [reflexivity|]. right. by exists "", "out".
Qed.

(** The dev server's test on one item, on ASCII strings, is the two-way
    substring test: the item is taken when, in lower case, its title
    contains the label or the label contains its title, and skipped
    otherwise. *)
Lemma server_match_is_two_way :
  forall (target : string) (item : MoodItem.t) (rest : list MoodItem.t)
         (matched_params : pyval) (t : string),
    ascii_only target = true -> ascii_only t = true ->
    get_or (MoodItem.title item) (PStr "") = PStr t ->
    (substring target (lower t) \/ substring (lower t) target ->
     Server.match_items target (item :: rest) matched_params
     = Return (get (MoodItem.params item))) /\
    (~ (substring target (lower t) \/ substring (lower t) target) ->
     Server.match_items target (item :: rest) matched_params
     = Server.match_items target rest matched_params).
Proof.
  intros target item rest m t _ _ Ht.
  rewrite (server_match_items_step _ _ _ _ _ Ht), <- !py_in_spec, <- orb_true_iff.
  destruct (py_in target (lower t) || py_in (lower t) target); split; done.
Qed.

Lemma server_match_items_first label pre item post m :
  Forall (title_differs label) pre ->
  title_matches label item ->
  Server.match_items (lower label) (pre ++ item :: post)%list m
  = Return (get (MoodItem.params item)).
Proof.
  intros Hpre (t & Ht & Hm). induction Hpre as [|x pre (u & Hu & _ & Hn1 & Hn2) _ IH].
  - simpl app. rewrite (server_match_items_step _ _ _ _ _ Ht).
    rewrite <- !py_in_spec, <- orb_true_iff in Hm. by rewrite Hm.
  - simpl app. rewrite (server_match_items_step _ _ _ _ _ Hu).
    rewrite <- py_in_spec in Hn1, Hn2.
    apply not_true_is_false in Hn1, Hn2. by rewrite Hn1, Hn2.
Qed.

Lemma server_match_categories_first label (before : taxonomy) (name : string)
    (pre : list MoodItem.t) item (post : list MoodItem.t) (after : taxonomy) :
  Forall (fun c => Forall (title_differs label) c.2) before ->
  Forall (title_differs label) pre ->
  title_matches label item ->
  truthy (get (MoodItem.params item)) = true ->
  Server.match_categories (lower label)
    (before ++ (name, pre ++ item :: post)%list :: after)%list PNone
  = Return (get (MoodItem.params item)).
Proof.
  intros Hbefore Hpre Hm Hp.
  induction Hbefore as [|[n items] before Hitems _ IH]; simpl in *.
  - by rewrite (server_match_items_first _ _ _ _ _ Hpre Hm), Hp.
  - by rewrite (server_match_items_none _ _ _ Hitems).
Qed.

(** X1: the dev server's browse fetches the playlists of the first item,
    in taxonomy order, whose title matches the resolved label two-way
    (in lower case one contains the other), given that item has a
    non-empty [params]: items before it that do not match are skipped,
    items after it are not looked at.  Stated for an ASCII keyword and
    ASCII titles, from any state in which [get_ytmusic] hands out the
    handle. *)
Theorem server_fetches_first_match :
  forall (av : bool) (new : nat -> outcome YTMusic) (st : State) (yt : YTMusic)
         (mood : string) (limit : Z) (before : taxonomy) (name : string)
         (pre : list MoodItem.t) (item : MoodItem.t) (post : list MoodItem.t)
         (after : taxonomy) (t : string),
    (Server.get_ytmusic av new st).1 = Return (Some yt) ->
    get_mood_categories yt
    = Return (before ++ (name, pre ++ item :: post)%list :: after)%list ->
    ascii_only mood = true ->
    Forall (fun c => Forall (title_differs (resolved_label mood)) c.2) before ->
    Forall (title_differs (resolved_label mood)) pre ->
    get_or (MoodItem.title item) (PStr "") = PStr t ->
    ascii_only t = true ->
    substring (lower (resolved_label mood)) (lower t) \/
    substring (lower t) (lower (resolved_label mood)) ->
    truthy (get (MoodItem.params item)) = true ->
    log (Server.fetch_mood_playlists av new mood limit st).2 =
    (log (Server.get_ytmusic av new st).2
       ++ [GetMoodCategories; GetMoodPlaylists (get (MoodItem.params item))])%list.
Proof.
  intros av new st yt mood limit before name pre item post after t
    Hget Hcats _ Hbefore Hpre Ht _ Hm Hp.
  unfold Server.fetch_mood_playlists. rewrite bind_run.
  destruct (Server.get_ytmusic av new st) as [[[yt'|] | e] st1]; simpl in Hget;
    [injection Hget as -> | done | done]. simpl.
  unfold try_except, call_get_mood_categories. rewrite !bind_run.
  unfold emit, lift at 1. rewrite Hcats. rewrite bind_run. unfold lift at 1.
  fold (resolved_label mood).
  rewrite (server_match_categories_first _ _ _ _ _ _ _ Hbefore Hpre
             (ex_intro _ t (conj Ht Hm)) Hp).
  unfold Server.fallback. rewrite Hp. simpl. rewrite Hp.
  unfold call_get_mood_playlists. rewrite !bind_run. unfold emit, lift, ret. simpl.
  rewrite <- app_assoc. simpl.
  by destruct (get_mood_playlists yt (get (MoodItem.params item))).
Qed.

Lemma server_fetches_first_match_witness :
  log (Server.fetch_mood_playlists true offline "chillout" 10
         (holding (catalogue [("Genres", [mood_item "Rock" "p-rock"]);
                              ("Moods", [mood_item "Jazz" "p-jazz";
                                         mood_item "Chill" "p-chill";
                                         mood_item "Chill hits" "p-hits"])]))).2
  = [GetMoodCategories; GetMoodPlaylists (PStr "p-chill")].
Proof.
  apply (server_fetches_first_match true offline
           (holding (catalogue [("Genres", [mood_item "Rock" "p-rock"]);
                                ("Moods", [mood_item "Jazz" "p-jazz";
                                           mood_item "Chill" "p-chill";
                                           mood_item "Chill hits" "p-hits"])]))
           (catalogue [("Genres", [mood_item "Rock" "p-rock"]);
                       ("Moods", [mood_item "Jazz" "p-jazz";
                                  mood_item "Chill" "p-chill";
                                  mood_item "Chill hits" "p-hits"])])
           "chillout" 10 [("Genres", [mood_item "Rock" "p-rock"])] "Moods"
           [mood_item "Jazz" "p-jazz"] (mood_item "Chill" "p-chill")
           [mood_item "Chill hits" "p-hits"] [] "Chill").
  - reflexivity.
  - reflexivity.
  - reflexivity.
  - repeat constructor. exists "Rock". split; [reflexivity|]. split; [reflexivity|].
    rewrite <- !py_in_spec. split; vm_compute; discriminate.
  - repeat constructor. exists "Jazz". split; [reflexivity|]. split; [reflexivity|].
    rewrite <- !py_in_spec. split; vm_compute; discriminate.
  - reflexivity.
  - reflexivity.
  - right. by exists "", "out".
  - reflexivity.
Defined.

(** *** Playlist ids *)

(** C1 at a failing input: the serverless handler copies whatever
    [playlistId] the upstream record carries, a missing one included,
    into the summaries of browse and of search; the dev server drops
    those records. *)
Theorem netlify_keeps_placeholder_ids :
  (map Summary.id <$> playlists_of
     (Netlify.handler offline (Some {[ "action" := "browse" ]}) (holding sloppy)))
  = Some [PNone; PStr "None"; PStr "null"; PStr ""; PStr "PLok"] /\
  (map Summary.id <$> playlists_of
     (Netlify.handler offline (Some {[ "action" := "search"; "q" := "mix" ]})
        (holding sloppy)))
  = Some [PNone; PStr "None"; PStr "null"; PStr ""; PStr "PLok"] /\
  (map Summary.id <$> playlists_of
     (Server.handle_api true offline (query_string [("action", "browse")])
        (holding sloppy)))
  = Some [PStr "PLok"] /\
  (map Summary.id <$> playlists_of
     (Server.handle_api true offline (query_string [("action", "search"); ("q", "mix")])
        (holding sloppy)))
  = Some [PStr "PLok"].
Proof. split_and!; reflexivity. Qed.

Lemma server_invalid_id_false (v : pyval) :
  Server.invalid_search_id v = false -> valid_id v.
Proof.
  unfold Server.invalid_search_id. intros H.
  apply orb_false_elim in H as [Ht [Hn1 Hn2]%orb_false_elim].
  destruct v as [|i]; [done|]. exists i. simpl in *.
  apply negb_false_iff, negb_true_iff in Ht.
  split_and!; [done| | |]; by apply String.eqb_neq.
Qed.

Lemma server_invalid_id_stricter (v : pyval) :
  Server.invalid_id v = false -> Server.invalid_search_id v = false.
Proof.
  unfold Server.invalid_id, Server.invalid_search_id.
  destruct (negb (truthy v)); [done|]. simpl.
  by intros [_ ?]%orb_false_elim.
Qed.

Lemma server_add_playlists_ids limit group_playlists playlists :
  Forall (fun s => valid_id (Summary.id s)) playlists ->
  Forall (fun s => valid_id (Summary.id s))
         (Server.add_playlists limit group_playlists playlists).
Proof.
  revert playlists. induction group_playlists as [|p rest IH]; intros playlists Hv;
    simpl; [done|].
  destruct (_ >=? _); [done|].
  destruct (Server.invalid_id _) eqn:E; [by apply IH|].
  apply IH, Forall_app. split; [done|]. constructor; [|done].
  by apply server_invalid_id_false, server_invalid_id_stricter.
Qed.

Lemma server_add_groups_ids limit mood_playlists playlists :
  Forall (fun s => valid_id (Summary.id s)) playlists ->
  Forall (fun s => valid_id (Summary.id s))
         (Server.add_groups limit mood_playlists playlists).
Proof.
  unfold Server.add_groups. revert playlists.
  induction mood_playlists as [|g rest IH]; intros playlists Hv; simpl; [done|].
  by apply IH, server_add_playlists_ids.
Qed.

Lemma server_collect_results_ids results playlists :
  Forall (fun s => valid_id (Summary.id s)) playlists ->
  Forall (fun s => valid_id (Summary.id s)) (Server.collect_results results playlists).
Proof.
  revert playlists. induction results as [|item rest IH]; intros playlists Hv;
    simpl; [done|].
  destruct (bool_decide _); [|by apply IH].
  destruct (Server.invalid_search_id _) eqn:E; [by apply IH|].
  apply IH, Forall_app. split; [done|]. constructor; [|done].
  by apply server_invalid_id_false.
Qed.

(** X2: in the dev server every summary of a list returned by browse or
    by search has a valid id, whatever the upstream records carry. *)
Theorem server_ids_are_valid :
  forall (av : bool) (new : nat -> outcome YTMusic) (st : State),
    (forall mood limit l,
        (Server.fetch_mood_playlists av new mood limit st).1 = Return (Items l) ->
        Forall (fun s => valid_id (Summary.id s)) l) /\
    (forall query limit l,
        (Server.search_playlists av new query limit st).1 = Return (Items l) ->
        Forall (fun s => valid_id (Summary.id s)) l).
Proof.
  intros av new st. split.
  - intros mood limit l. unfold Server.fetch_mood_playlists. rewrite bind_run.
    destruct (Server.get_ytmusic av new st) as [[[yt|] | e] st1]; [|done|done].
    unfold try_except. rewrite bind_run.
    destruct (call_get_mood_categories yt st1) as [[cats | e] st2]; [|done].
    rewrite bind_run. unfold lift at 1.
    destruct (Server.match_categories _ cats PNone) as [m | e]; [|done].
    destruct (truthy (Server.fallback cats m)).
    + rewrite bind_run.
      destruct (call_get_mood_playlists yt _ st2) as [[groups | e] st3]; [|done].
      intros [= <-]. by apply server_add_groups_ids.
    + by intros [= <-].
  - intros query limit l. unfold Server.search_playlists. rewrite bind_run.
    destruct (Server.get_ytmusic av new st) as [[[yt|] | e] st1]; [|done|done].
    unfold try_except. rewrite bind_run.
    destruct (call_search yt query limit st1) as [[results | e] st2]; [|done].
    intros [= <-]. by apply server_collect_results_ids.
Qed.

Lemma server_ids_are_valid_witness :
  Forall (fun s => valid_id (Summary.id s))
         [Server.summary (record "PLok") (PStr "PLok")].
Proof.
  apply (proj1 (server_ids_are_valid true offline (holding sloppy)) "party" 10).
  reflexivity.
Defined.

(** *** The routers on small upstreams *)

Lemma method_errors_are_reported_witness :
  (Netlify.get_available_moods offline (holding failing)).1
  = Return (ErrorDict "quota exceeded").
Proof.
  destruct (method_errors_are_reported true offline (holding failing)) as (_ & _ & H & _).
  apply (proj2 H GetMoodCategories (Exn ClientError "quota exceeded")); [|reflexivity].
  apply list_elem_of_singleton. reflexivity.
Defined.

Example moods_are_flattened :
  body <$> (match (Netlify.handler offline (Some {[ "action" := "moods" ]})
                     (holding (catalogue [("Genres", [mood_item "Party" "p1"])]))).1
            with Return resp => Some resp | Raise _ => None end)
  = Some (ResMoods (Items [ {| Mood.title := PStr "Party"; Mood.params := PStr "p1" |} ])).
Proof. reflexivity. Qed.

Example browse_stops_at_limit :
  (map Summary.id <$> playlists_of
     (Server.handle_api true offline
        (query_string [("action", "browse"); ("mood", "party"); ("limit", "1")]) warm))
  = Some [PStr "PL1"].
Proof. reflexivity. Qed.

Example search_keeps_playlists_only :
  (map Summary.id <$> playlists_of
     (Netlify.handler offline (Some {[ "action" := "search"; "q" := "jazz" ]})
        (holding {| get_mood_categories := Return [];
                    get_mood_playlists := fun _ => Return [];
                    search := fun _ _ =>
                      Return [ {| SearchItem.resultType := Some (PStr "song");
                                  SearchItem.self := record "S1" |};
                               {| SearchItem.resultType := Some (PStr "playlist");
                                  SearchItem.self := record "PLjazz" |} ] |})))
  = Some [PStr "PLjazz"].
Proof. reflexivity. Qed.

Example upstream_error_in_band :
  (Server.handle_api true offline (query_string [("action", "moods")]) (holding failing)).1
  = Return {| statusCode := 200; body := ResMoods (ErrorDict "quota exceeded") |}.
Proof. reflexivity. Qed.

Example unknown_action_is_echoed :
  (Netlify.handler offline (Some {[ "action" := "delete" ]}) initial)
  = (Return {| statusCode := 200; body := ResError "Unknown action: delete" |}, initial).
Proof. reflexivity. Qed.

Example first_request_constructs :
  log (Netlify.serve (fun _ => Return demo_client)
         [Some {[ "action" := "browse"; "mood" := "party"; "limit" := "2" ]};
          Some {[ "action" := "moods" ]}] initial)
  = [Construct; GetMoodCategories; GetMoodPlaylists (PStr "p1"); GetMoodCategories].
Proof. reflexivity. Qed.

(** ** Further properties of the routers and the adapter *)

(** *** The routers *)

(** X3: an [action] other than moods, browse and search is answered with
    [{"error": "Unknown action: <action>"}], the action echoed as it came,
    by both routers; the process state is left as it was, so no client is
    constructed or called. *)
Theorem unknown_action_is_an_error :
  (forall YTMusic_new (params : gmap string string) (st : State) (action : string),
      params !! "action" = Some action ->
      action <> "moods" /\ action <> "browse" /\ action <> "search" ->
      Netlify.handler YTMusic_new (Some params) st =
      (Return {| statusCode := 200;
                 body := ResError ("Unknown action: " ++ action) |}, st)) /\
  (forall available YTMusic_new (params : gmap string Server.qs_values) (st : State)
          (action : string),
      Server.first <$> params !! "action" = Some action ->
      action <> "moods" /\ action <> "browse" /\ action <> "search" ->
      Server.handle_api available YTMusic_new params st =
      (Return {| statusCode := 200;
                 body := ResError ("Unknown action: " ++ action) |}, st)).
Proof.
  split.
  - intros new params st action Ha (H1 & H2 & H3).
    apply String.eqb_neq in H1, H2, H3.
    unfold Netlify.handler. simpl.
    destruct (parse_limit_range (default "10" (params !! "limit"))) as (n & Hn & _).
    unfold Netlify.request_limit. rewrite Hn, Ha. unfold_monad. simpl.
    by rewrite H1, H2, H3.
  - intros av new params st action Ha (H1 & H2 & H3).
    apply String.eqb_neq in H1, H2, H3.
    unfold Server.handle_api.
    destruct (parse_limit_range (Server.param params "limit" "10")) as (n & Hn & _).
    unfold Server.request_limit. rewrite Hn.
    assert (Server.param params "action" "moods" = action) as ->.
    { unfold Server.param. destruct (params !! "action"); by simplify_eq/=. }
    unfold_monad. simpl. by rewrite H1, H2, H3.
Qed.

Lemma unknown_action_is_an_error_witness :
  Netlify.handler offline (Some {[ "action" := "Moods" ]}) initial =
  (Return {| statusCode := 200; body := ResError "Unknown action: Moods" |}, initial) /\
  Server.handle_api true offline (query_string [("action", "delete")]) warm =
  (Return {| statusCode := 200; body := ResError "Unknown action: delete" |}, warm).
Proof.
  split.
  - apply (proj1 unknown_action_is_an_error offline {[ "action" := "Moods" ]} initial "Moods");
      [reflexivity | by split_and!].
  - apply (proj2 unknown_action_is_an_error true offline
             (query_string [("action", "delete")]) warm "delete");
      [reflexivity | by split_and!].
Defined.

Lemma netlify_get_ytmusic_raises new st e :
  (Netlify.get_ytmusic new st).1 = Raise e ->
  ytmusic st = None /\ new (constructions st) = Raise e.
Proof.
  destruct (ytmusic st) as [yt|] eqn:E.
  - by rewrite (netlify_get_ytmusic_memo _ _ _ E).
  - rewrite (netlify_get_ytmusic_fresh _ _ E).
    destruct (new (constructions st)); [done|]. by intros [= ->].
Qed.

Lemma server_get_ytmusic_raises av new st e :
  (Server.get_ytmusic av new st).1 = Raise e ->
  av = true /\ ytmusic st = None /\ new (constructions st) = Raise e.
Proof.
  destruct (ytmusic st) as [yt|] eqn:E.
  - by rewrite (server_get_ytmusic_memo _ _ _ _ E).
  - destruct av; [|by rewrite (server_get_ytmusic_unavailable _ _ E)].
    rewrite (server_get_ytmusic_fresh _ _ E).
    destruct (new (constructions st)); [done|]. by intros [= ->].
Qed.

Lemma netlify_op_raises {A} new st (r : outcome (adapter_result A) * State) e :
  netlify_outcome new st r -> r.1 = Raise e ->
  ytmusic st = None /\ new (constructions st) = Raise e.
Proof.
  unfold netlify_outcome. intros H Hr.
  destruct (Netlify.get_ytmusic new st).1 as [yt | e'] eqn:E.
  - destruct H as [(x & Hx) _]. congruence.
  - apply netlify_get_ytmusic_raises. congruence.
Qed.

Lemma server_op_raises {A} av new st (r : outcome (adapter_result A) * State) e :
  server_outcome av new st r -> r.1 = Raise e ->
  av = true /\ ytmusic st = None /\ new (constructions st) = Raise e.
Proof.
  unfold server_outcome. intros H Hr.
  destruct (Server.get_ytmusic av new st).1 as [[yt|] | e'] eqn:E.
  - destruct H as [(x & Hx) _]. congruence.
  - congruence.
  - apply server_get_ytmusic_raises. congruence.
Qed.

(** X4: the only exception that can leave a router is one raised by
    [YTMusic()] itself, in a process that holds no handle yet (and, in the
    dev server, has the library); whenever a router returns, the status
    is 200. *)
Theorem router_raises_only_from_constructor :
  forall (av : bool) (new : nat -> outcome YTMusic) (st : State),
    (forall event e,
        (Netlify.handler new event st).1 = Raise e ->
        ytmusic st = None /\ new (constructions st) = Raise e) /\
    (forall event resp,
        (Netlify.handler new event st).1 = Return resp -> statusCode resp = 200) /\
    (forall params e,
        (Server.handle_api av new params st).1 = Raise e ->
        av = true /\ ytmusic st = None /\ new (constructions st) = Raise e) /\
    (forall params resp,
        (Server.handle_api av new params st).1 = Return resp -> statusCode resp = 200).
Proof.
  intros av new st.
  destruct (netlify_outcomes new st) as (Nf & Ns & Nm).
  destruct (server_outcomes av new st) as (Sf & Ss & Sm).
  split_and!.
  - intros event e. unfold Netlify.handler. rewrite bind_run.
    destruct (parse_limit_range (default "10" (default ∅ event !! "limit")))
      as (n & Hn & _).
    unfold Netlify.request_limit, lift. rewrite Hn. rewrite !bind_run.
    repeat match goal with |- context [if ?b then _ else _] => destruct b end;
      try done; rewrite bind_run;
      match goal with
      | |- context [Netlify.get_available_moods new st] =>
             destruct (Netlify.get_available_moods new st) as [[r | e'] st'] eqn:E;
             simpl; [done|]; intros [= ->];
             eapply netlify_op_raises; [exact Nm|]; done
      | |- context [Netlify.fetch_mood_playlists new ?m n st] =>
             destruct (Netlify.fetch_mood_playlists new m n st) as [[r | e'] st'] eqn:E;
             simpl; [done|]; intros [= ->];
             eapply netlify_op_raises; [apply Nf|]; by rewrite E
      | |- context [Netlify.search_playlists new ?q n st] =>
             destruct (Netlify.search_playlists new q n st) as [[r | e'] st'] eqn:E;
             simpl; [done|]; intros [= ->];
             eapply netlify_op_raises; [apply Ns|]; by rewrite E
      end.
  - intros event resp. unfold Netlify.handler. rewrite bind_run.
    destruct (lift _ st) as [[n | e] st0]; [|done]. rewrite bind_run.
    match goal with |- context [(?m st0)] => destruct (m st0) as [[r | e] st1] end;
      [|done]. by intros [= <-].
  - intros params e. unfold Server.handle_api. rewrite bind_run.
    destruct (parse_limit_range (Server.param params "limit" "10")) as (n & Hn & _).
    unfold Server.request_limit, lift. rewrite Hn. rewrite !bind_run.
    repeat match goal with |- context [if ?b then _ else _] => destruct b end;
      try done; rewrite bind_run;
      match goal with
      | |- context [Server.get_available_moods av new st] =>
             destruct (Server.get_available_moods av new st) as [[r | e'] st'] eqn:E;
             simpl; [done|]; intros [= ->];
             eapply server_op_raises; [exact Sm|]; done
      | |- context [Server.fetch_mood_playlists av new ?m n st] =>
             destruct (Server.fetch_mood_playlists av new m n st) as [[r | e'] st'] eqn:E;
             simpl; [done|]; intros [= ->];
             eapply server_op_raises; [apply Sf|]; by rewrite E
      | |- context [Server.search_playlists av new ?q n st] =>
             destruct (Server.search_playlists av new q n st) as [[r | e'] st'] eqn:E;
             simpl; [done|]; intros [= ->];
             eapply server_op_raises; [apply Ss|]; by rewrite E
      end.
  - intros params resp. unfold Server.handle_api. rewrite bind_run.
    destruct (lift _ st) as [[n | e] st0]; [|done]. rewrite bind_run.
    match goal with |- context [(?m st0)] => destruct (m st0) as [[r | e] st1] end;
      [|done]. by intros [= <-].
Qed.

Lemma router_raises_only_from_constructor_witness :
  ytmusic initial = None /\
  offline (constructions initial)
  = Raise (Exn ClientError "Failed to establish a new connection").
Proof.
  apply (proj1 (router_raises_only_from_constructor true offline initial)
           (Some {[ "action" := "browse" ]})).
  reflexivity.
Defined.


(** *** Resolving the mood keyword *)

Lemma lower_ascii_idemp (c : ascii) : lower_ascii (lower_ascii c) = lower_ascii c.
Proof. destruct c as [[] [] [] [] [] [] [] []]; reflexivity. Qed.

Lemma lower_idemp (s : string) : lower (lower s) = lower s.
Proof. induction s as [|c s IH]; simpl; [done|]. by rewrite lower_ascii_idemp, IH. Qed.

(** Every entry of the table maps a lower-case key to its capitalised form. *)
Lemma MOOD_CATEGORIES_lower (key label : string) :
  MOOD_CATEGORIES !! key = Some label -> lower label = key.
Proof.
  intros H. apply elem_of_list_to_map_2 in H.
  repeat (apply elem_of_cons in H as [[= -> ->] | H]; [reflexivity|]).
  by apply elem_of_nil in H.
Qed.

Lemma resolved_label_lower (mood : string) :
  lower (resolved_label mood) = lower mood.
Proof.
  unfold resolved_label. destruct (MOOD_CATEGORIES !! lower mood) as [label|] eqn:E.
  - simpl. by apply MOOD_CATEGORIES_lower.
  - done.
Qed.

(** X5: the string that browse-by-mood compares with the titles is always
    [mood.lower()]: whether or not the keyword is a key of
    [MOOD_CATEGORIES], the resolved label in lower case is the keyword in
    lower case.  So in both files two keywords that differ only in letter
    case give the same result and the same client calls. *)
Theorem browse_depends_on_lowercase_mood :
  forall (av : bool) (new : nat -> outcome YTMusic) (st : State)
         (mood mood' : string) (limit : Z),
    lower mood = lower mood' ->
    lower (resolved_label mood) = lower mood /\
    Netlify.fetch_mood_playlists new mood limit st
    = Netlify.fetch_mood_playlists new mood' limit st /\
    Server.fetch_mood_playlists av new mood limit st
    = Server.fetch_mood_playlists av new mood' limit st.
Proof.
  intros av new st mood mood' limit Heq.
  pose proof (resolved_label_lower mood) as H.
  pose proof (resolved_label_lower mood') as H'.
  unfold resolved_label in H, H'.
  split; [apply resolved_label_lower|].
  unfold Netlify.fetch_mood_playlists, Server.fetch_mood_playlists.
  by rewrite H, H', Heq.
Qed.

Lemma browse_depends_on_lowercase_mood_witness :
  lower (resolved_label "PARTY") = lower "PARTY" /\
  Netlify.fetch_mood_playlists offline "PARTY" 3 warm
  = Netlify.fetch_mood_playlists offline "party" 3 warm /\
  Server.fetch_mood_playlists true offline "PARTY" 3 warm
  = Server.fetch_mood_playlists true offline "party" 3 warm.
Proof.
  apply (browse_depends_on_lowercase_mood true offline warm "PARTY" "party" 3).
  reflexivity.
Defined.


(** *** What search returns *)

Lemma netlify_collect_results_spec results playlists :
  Netlify.collect_results results playlists =
  (playlists ++ map (fun item => Netlify.search_summary (SearchItem.self item))
                    (filter (fun item => is_playlist item = true) results))%list.
Proof.
  revert playlists. induction results as [|item rest IH]; intros playlists; simpl.
  - by rewrite app_nil_r.
  - rewrite filter_cons. fold (is_playlist item).
    destruct (is_playlist item) eqn:E.
    + rewrite decide_True by done. rewrite IH, <- app_assoc. done.
    + rewrite decide_False by done. apply IH.
Qed.

Lemma server_collect_results_spec results playlists :
  Server.collect_results results playlists =
  (playlists ++ map (fun item => Server.summary (SearchItem.self item) (result_id item))
                    (filter (fun item => is_playlist item = true /\
                                         Server.invalid_search_id (result_id item) = false)
                            results))%list.
Proof.
  revert playlists. induction results as [|item rest IH]; intros playlists; simpl.
  - by rewrite app_nil_r.
  - rewrite filter_cons. fold (is_playlist item). fold (result_id item).
    destruct (is_playlist item) eqn:E;
      [destruct (Server.invalid_search_id (result_id item)) eqn:E'|].
    + rewrite decide_False by (intros [_ ?]; done). apply IH.
    + rewrite decide_True by done. rewrite IH, <- app_assoc. done.
    + rewrite decide_False by (intros [? _]; done). apply IH.
Qed.

Lemma search_with_handle_netlify new st yt query limit results :
  ytmusic st = Some yt -> search yt query limit = Return results ->
  Netlify.search_playlists new query limit st =
  (Return (Items (Netlify.collect_results results [])),
   {| ytmusic := Some yt; log := log st ++ [Search query limit] |}).
Proof.
  intros Hyt Hs. unfold Netlify.search_playlists.
  rewrite bind_run, (netlify_get_ytmusic_memo _ _ _ Hyt).
  unfold try_except, call_search. rewrite !bind_run. unfold emit, lift, ret.
  by rewrite Hs, Hyt.
Qed.

Lemma search_with_handle_server av new st yt query limit results :
  ytmusic st = Some yt -> search yt query limit = Return results ->
  Server.search_playlists av new query limit st =
  (Return (Items (Server.collect_results results [])),
   {| ytmusic := Some yt; log := log st ++ [Search query limit] |}).
Proof.
  intros Hyt Hs. unfold Server.search_playlists.
  rewrite bind_run, (server_get_ytmusic_memo _ _ _ _ Hyt).
  unfold try_except, call_search. rewrite !bind_run. unfold emit, lift, ret.
  by rewrite Hs, Hyt.
Qed.

(** X6: with the handle at hand and an upstream [search] that returns
    [results], search makes that one client call, with the query and the
    limit as given, and returns, in upstream order, one summary for every
    result whose [resultType] is "playlist" (serverless), resp. for every
    such result whose id passes the filter (dev server); no other result
    is returned. *)
Theorem search_returns_the_playlists :
  forall (av : bool) (new : nat -> outcome YTMusic) (st : State) (yt : YTMusic)
         (query : string) (limit : Z) (results : list SearchItem.t),
    ytmusic st = Some yt ->
    search yt query limit = Return results ->
    Netlify.search_playlists new query limit st =
    (Return (Items (map (fun item => Netlify.search_summary (SearchItem.self item))
                        (filter (fun item => is_playlist item = true) results))),
     {| ytmusic := Some yt; log := log st ++ [Search query limit] |}) /\
    Server.search_playlists av new query limit st =
    (Return (Items (map (fun item => Server.summary (SearchItem.self item) (result_id item))
                        (filter (fun item =>
                                   is_playlist item = true /\
                                   Server.invalid_search_id (result_id item) = false)
                                results))),
     {| ytmusic := Some yt; log := log st ++ [Search query limit] |}).
Proof.
  intros av new st yt query limit results Hyt Hs. split.
  - rewrite (search_with_handle_netlify _ _ _ _ _ _ Hyt Hs).
    by rewrite netlify_collect_results_spec.
  - rewrite (search_with_handle_server _ _ _ _ _ _ _ Hyt Hs).
    by rewrite server_collect_results_spec.
Qed.

Lemma search_returns_the_playlists_witness :
  Netlify.search_playlists offline "jazz" 1 (holding two_hits) =
  (Return (Items [Netlify.search_summary (record "PLa");
                  Netlify.search_summary (record "PLb")]),
   {| ytmusic := Some two_hits; log := [Search "jazz" 1] |}).
Proof.
  apply (proj1 (search_returns_the_playlists true offline (holding two_hits) two_hits
                  "jazz" 1 _ eq_refl eq_refl)).
Defined.

(** X7: on the same upstream results the dev server's search returns the
    ids the serverless search returns, in the same order, less those its
    filter rejects. *)
Theorem server_search_filters_netlify_search :
  forall results : list SearchItem.t,
    map Summary.id (Server.collect_results results []) =
    filter (fun v => Server.invalid_search_id v = false)
           (map Summary.id (Netlify.collect_results results [])).
Proof.
  intros results.
  rewrite server_collect_results_spec, netlify_collect_results_spec. simpl.
  induction results as [|item rest IH]; [done|].
  rewrite !filter_cons.
  destruct (is_playlist item) eqn:E;
    [destruct (Server.invalid_search_id (result_id item)) eqn:E'|].
  - rewrite decide_False by (intros [_ ?]; done).
    rewrite decide_True by done. simpl. rewrite filter_cons.
    fold (result_id item). rewrite decide_False by (rewrite E'; done). apply IH.
  - rewrite !decide_True by done. simpl. rewrite filter_cons.
    fold (result_id item). rewrite decide_True by done. by rewrite IH.
  - rewrite decide_False by (intros [? _]; done).
    rewrite decide_False by done. apply IH.
Qed.


(** *** What browse returns *)

(** Filling a list up to [n] entries from one run of candidates and then
    from another is filling it from the two runs in a row. *)
Lemma fill_twice {A} (n : nat) (acc a b : list A) :
  let acc' := (acc ++ take (n - length acc) a)%list in
  (acc' ++ take (n - length acc') b)%list =
  (acc ++ take (n - length acc) (a ++ b))%list.
Proof.
  simpl. rewrite <- app_assoc. f_equal. rewrite take_app. f_equal.
  rewrite length_app, length_take. f_equal. lia.
Qed.

Lemma server_kept_app (a b : list Raw.playlist) :
  server_kept (a ++ b) = (server_kept a ++ server_kept b)%list.
Proof. unfold server_kept. by rewrite filter_app, map_app. Qed.

Lemma server_kept_nil : server_kept [] = [].
Proof. reflexivity. Qed.

Lemma server_add_playlists_spec limit group_playlists playlists :
  Server.add_playlists limit group_playlists playlists =
  (playlists ++ take (Z.to_nat limit - length playlists)
                     (server_kept group_playlists))%list.
Proof.
  revert playlists. induction group_playlists as [|p rest IH]; intros playlists; simpl.
  - by rewrite server_kept_nil, take_nil, app_nil_r.
  - destruct (Z.geb_spec (Z.of_nat (length playlists)) limit) as [Hge | Hlt].
    + replace (Z.to_nat limit - length playlists)%nat with 0%nat by lia.
      by rewrite take_0, app_nil_r.
    + unfold server_kept. rewrite filter_cons.
      destruct (Server.invalid_id (get (Raw.playlistId p))) eqn:E.
      * rewrite decide_False by done. apply IH.
      * rewrite decide_True by done. rewrite IH, <- app_assoc, length_app. simpl.
        replace (Z.to_nat limit - length playlists)%nat
          with (S (Z.to_nat limit - (length playlists + 1)))%nat by lia.
        done.
Qed.

Lemma server_add_groups_spec limit mood_playlists playlists :
  Server.add_groups limit mood_playlists playlists =
  (playlists ++ take (Z.to_nat limit - length playlists)
                     (server_kept (concat (map Server.group_playlists_of mood_playlists))))%list.
Proof.
  unfold Server.add_groups. revert playlists.
  induction mood_playlists as [|g rest IH]; intros playlists; simpl.
  - by rewrite server_kept_nil, take_nil, app_nil_r.
  - rewrite IH, server_add_playlists_spec, server_kept_app. apply fill_twice.
Qed.

(** X8: for an ASCII keyword and ASCII titles, when the dev server's
    browse gets as far as fetching the groups of the matched [params],
    it returns the first [limit] summaries, in
    upstream order, of the records whose id passes the filter: the
    records of each group are its ["playlists"] list or, when that is
    missing or empty and the group has a [playlistId] itself, the group. *)
Theorem server_browse_returns_first_valid :
  forall (av : bool) (new : nat -> outcome YTMusic) (st : State) (yt : YTMusic)
         (mood : string) (limit : Z) (cats : taxonomy) (m : pyval) (groups : list Group.t),
    ytmusic st = Some yt ->
    get_mood_categories yt = Return cats ->
    ascii_only mood = true ->
    Forall ascii_title (all_items cats) ->
    Server.match_categories (lower mood) cats PNone = Return m ->
    truthy (Server.fallback cats m) = true ->
    get_mood_playlists yt (Server.fallback cats m) = Return groups ->
    Server.fetch_mood_playlists av new mood limit st =
    (Return (Items (take (Z.to_nat limit)
                         (server_kept (concat (map Server.group_playlists_of groups))))),
     {| ytmusic := Some yt;
        log := log st ++ [GetMoodCategories; GetMoodPlaylists (Server.fallback cats m)] |}).
Proof.
  intros av new st yt mood limit cats m groups Hyt Hcats _ _ Hm Ht Hg.
  unfold Server.fetch_mood_playlists.
  rewrite bind_run, (server_get_ytmusic_memo _ _ _ _ Hyt).
  unfold try_except, call_get_mood_categories. rewrite !bind_run.
  unfold emit, lift at 1. rewrite Hcats. rewrite bind_run. unfold lift at 1.
  pose proof (resolved_label_lower mood) as Hl. unfold resolved_label in Hl.
  rewrite Hl, Hm, Ht.
  unfold call_get_mood_playlists. rewrite !bind_run. unfold emit, lift, ret. simpl.
  rewrite Hg, Hyt, <- app_assoc, server_add_groups_spec. simpl.
  by rewrite Nat.sub_0_r.
Qed.

Lemma server_browse_returns_first_valid_witness :
  Server.fetch_mood_playlists true offline "party" 3 (holding sloppy) =
  (Return (Items [Server.summary (record "PLok") (PStr "PLok")]),
   {| ytmusic := Some sloppy;
      log := [GetMoodCategories; GetMoodPlaylists (PStr "p1")] |}).
Proof.
  apply (server_browse_returns_first_valid true offline (holding sloppy) sloppy "party" 3
           [("Moods", [mood_item "Party" "p1"])] (PStr "p1")
           [ {| Group.playlists := Some placeholders; Group.self := no_record |} ]);
    try reflexivity.
  repeat constructor. by intros t [= <-].
Defined.


Lemma netlify_add_playlists_spec limit group_playlists playlists :
  Netlify.add_playlists limit group_playlists playlists =
  (playlists ++ take (Z.to_nat limit - length playlists)
                     (map Netlify.browse_summary group_playlists))%list.
Proof.
  revert playlists. induction group_playlists as [|p rest IH]; intros playlists; simpl.
  - by rewrite take_nil, app_nil_r.
  - destruct (Z.geb_spec (Z.of_nat (length playlists)) limit) as [Hge | Hlt].
    + replace (Z.to_nat limit - length playlists)%nat with 0%nat by lia.
      by rewrite take_0, app_nil_r.
    + rewrite IH, <- app_assoc, length_app. simpl.
      replace (Z.to_nat limit - length playlists)%nat
        with (S (Z.to_nat limit - (length playlists + 1)))%nat by lia.
      done.
Qed.

Lemma netlify_add_groups_spec limit mood_playlists playlists :
  Netlify.add_groups limit mood_playlists playlists =
  (playlists ++ take (Z.to_nat limit - length playlists)
                     (map Netlify.browse_summary (listed mood_playlists)))%list.
Proof.
  unfold Netlify.add_groups, listed. revert playlists.
  induction mood_playlists as [|g rest IH]; intros playlists; simpl.
  - by rewrite take_nil, app_nil_r.
  - rewrite IH, netlify_add_playlists_spec, map_app. apply fill_twice.
Qed.

(** The records behind the hits among [items], hit after hit. *)
Lemma netlify_scan_items_spec yt target limit items playlists st :
  Forall (passable yt target) items ->
  Netlify.scan_items yt target limit items playlists st =
  (Return (playlists ++
           take (Z.to_nat limit - length playlists)
                (map Netlify.browse_summary
                     (concat (map (fun item => listed (groups_for yt item))
                                  (filter (fun item => netlify_hit target item = true)
                                          items)))))%list,
   {| ytmusic := ytmusic st;
      log := log st ++
             map (fun item => GetMoodPlaylists (get (MoodItem.params item)))
                 (filter (fun item => netlify_hit target item = true) items) |}).
Proof.
  intros Hall. revert playlists st.
  induction Hall as [|item rest [(t & Ht) Hhit] _ IH]; intros playlists st; simpl.
  - unfold ret. rewrite take_nil, !app_nil_r. by destruct st.
  - assert (netlify_hit target item = py_in target (lower t)) as Hh.
    { unfold netlify_hit. by rewrite Ht. }
    rewrite bind_run. unfold lift at 1. rewrite Ht. simpl.
    rewrite !filter_cons.
    destruct (py_in target (lower t)) eqn:E.
    + destruct (Hhit Hh) as ([p Hp] & groups & Hg).
      rewrite !decide_True by done.
      rewrite bind_run. unfold lift at 1, Netlify.subscript_params. rewrite Hp.
      rewrite bind_run. unfold call_get_mood_playlists. rewrite bind_run.
      unfold emit, lift at 1. simpl.
      assert (get (MoodItem.params item) = p) as Hget by (by rewrite Hp).
      rewrite Hget in Hg. rewrite Hg. rewrite IH. simpl.
      rewrite netlify_add_groups_spec.
      unfold groups_for at 2. rewrite Hget, Hg, map_app, fill_twice.
      by rewrite <- app_assoc.
    + rewrite !decide_False by (rewrite Hh; done). apply IH.
Qed.

Lemma netlify_scan_categories_spec yt target limit (cats : taxonomy) playlists st :
  Forall (passable yt target) (all_items cats) ->
  Netlify.scan_categories yt target limit cats playlists st =
  (Return (playlists ++
           take (Z.to_nat limit - length playlists)
                (map Netlify.browse_summary
                     (concat (map (fun item => listed (groups_for yt item))
                                  (filter (fun item => netlify_hit target item = true)
                                          (all_items cats))))))%list,
   {| ytmusic := ytmusic st;
      log := log st ++
             map (fun item => GetMoodPlaylists (get (MoodItem.params item)))
                 (filter (fun item => netlify_hit target item = true)
                         (all_items cats)) |}).
Proof.
  revert playlists st. unfold all_items.
  induction cats as [|[name items] rest IH]; intros playlists st Hall; simpl.
  - unfold ret. rewrite take_nil, !app_nil_r. by destruct st.
  - simpl in Hall. apply Forall_app in Hall as [Hitems Hrest].
    rewrite bind_run, (netlify_scan_items_spec _ _ _ _ _ _ Hitems).
    rewrite (IH _ _ Hrest). simpl.
    rewrite !filter_app, !map_app, concat_app, map_app, fill_twice.
    by rewrite <- app_assoc.
Qed.

(** X9: for an ASCII keyword and ASCII titles, when nothing raises on the
    way (titles are strings, every hit has
    a [params] for which the handle returns groups), the serverless
    browse calls [get_mood_playlists] once for every item whose title
    contains the keyword in lower case, in taxonomy order and whatever
    the limit, and returns the first [limit] summaries of the records
    listed by those calls, in that order. *)
Theorem netlify_browse_scans_every_hit :
  forall (new : nat -> outcome YTMusic) (st : State) (yt : YTMusic)
         (mood : string) (limit : Z) (cats : taxonomy),
    ytmusic st = Some yt ->
    get_mood_categories yt = Return cats ->
    ascii_only mood = true ->
    Forall ascii_title (all_items cats) ->
    Forall (passable yt (lower mood)) (all_items cats) ->
    Netlify.fetch_mood_playlists new mood limit st =
    (Return (Items (take (Z.to_nat limit)
                      (map Netlify.browse_summary
                         (concat (map (fun item => listed (groups_for yt item))
                                    (filter (fun item => netlify_hit (lower mood) item = true)
                                            (all_items cats))))))),
     {| ytmusic := Some yt;
        log := log st ++
               GetMoodCategories ::
               map (fun item => GetMoodPlaylists (get (MoodItem.params item)))
                   (filter (fun item => netlify_hit (lower mood) item = true)
                           (all_items cats)) |}).
Proof.
  intros new st yt mood limit cats Hyt Hcats _ _ Hall.
  unfold Netlify.fetch_mood_playlists.
  rewrite bind_run, (netlify_get_ytmusic_memo _ _ _ Hyt).
  unfold try_except, call_get_mood_categories. rewrite !bind_run.
  unfold emit, lift at 1. rewrite Hcats. rewrite bind_run.
  pose proof (resolved_label_lower mood) as Hl. unfold resolved_label in Hl.
  rewrite Hl, (netlify_scan_categories_spec _ _ _ _ _ _ Hall). simpl.
  by rewrite Hyt, Nat.sub_0_r, <- app_assoc.
Qed.


Lemma netlify_browse_scans_every_hit_witness :
  Netlify.fetch_mood_playlists offline "Party" 1
    (holding (catalogue [("Moods", [mood_item "Party" "p1"; mood_item "Rock" "p2"]);
                         ("Charts", [mood_item "Party hits" "p3"])]))
  = (Return (Items [Netlify.browse_summary (record "PL-p1")]),
     {| ytmusic := Some (catalogue [("Moods", [mood_item "Party" "p1";
                                                mood_item "Rock" "p2"]);
                                    ("Charts", [mood_item "Party hits" "p3"])]);
        log := [GetMoodCategories; GetMoodPlaylists (PStr "p1");
                GetMoodPlaylists (PStr "p3")] |}).
Proof.
  apply (netlify_browse_scans_every_hit offline
           (holding (catalogue [("Moods", [mood_item "Party" "p1"; mood_item "Rock" "p2"]);
                                ("Charts", [mood_item "Party hits" "p3"])]))
           (catalogue [("Moods", [mood_item "Party" "p1"; mood_item "Rock" "p2"]);
                       ("Charts", [mood_item "Party hits" "p3"])])
           "Party" 1
           [("Moods", [mood_item "Party" "p1"; mood_item "Rock" "p2"]);
            ("Charts", [mood_item "Party hits" "p3"])]).
  - reflexivity.
  - reflexivity.
  - reflexivity.
  - repeat constructor; by intros t [= <-].
  - repeat constructor; try (eexists; reflexivity); simpl; eauto.
Defined.

(** *** The id filter of the dev server *)

(** X10: the dev server's filter rejects exactly the ids that are not a
    non-empty string other than "none" and "null" in any letter case;
    the test of browse, with its extra comparison with "None", and the
    test of search reject the same values. *)
Theorem server_id_filter_is_exact :
  forall v : pyval,
    (Server.invalid_id v = false <-> valid_id v) /\
    Server.invalid_search_id v = Server.invalid_id v.
Proof.
  intros v.
  assert (Server.invalid_search_id v = Server.invalid_id v) as Heq.
  { unfold Server.invalid_id, Server.invalid_search_id.
    destruct (negb (truthy v)); [done|]. simpl.
    destruct (bool_decide_reflect (v = PStr "None")) as [-> | _]; done. }
  split; [|done]. split.
  - intros H. apply server_invalid_id_false. by rewrite Heq.
  - intros (i & -> & Hne & Hn1 & Hn2). rewrite <- Heq.
    unfold Server.invalid_search_id. simpl.
    apply String.eqb_neq in Hne, Hn1, Hn2. by rewrite Hne, Hn1, Hn2.
Qed.

(** *** Listing the moods *)

Lemma flatten_moods_items (cats : taxonomy) :
  flatten_moods cats = map mood_of_item (all_items cats).
Proof.
  unfold flatten_moods, all_items.
  induction cats as [|[name items] rest IH]; simpl; [done|].
  by rewrite map_app, IH.
Qed.

(** X11: with the library importable, listing the moods behaves the same
    in both files, from any state: same result or exception, same state
    after.  With the handle at hand and a taxonomy returned, the result
    has one entry per taxonomy item, in the taxonomy's order, carrying the
    item's [title] and [params] ([None] for an absent key), after exactly
    one client call. *)
Theorem moods_are_the_taxonomy_items :
  forall (new : nat -> outcome YTMusic) (st : State),
    Server.get_available_moods true new st = Netlify.get_available_moods new st /\
    forall (yt : YTMusic) (cats : taxonomy),
      ytmusic st = Some yt ->
      get_mood_categories yt = Return cats ->
      Netlify.get_available_moods new st =
      (Return (Items (map mood_of_item (all_items cats))),
       {| ytmusic := Some yt; log := log st ++ [GetMoodCategories] |}).
Proof.
  intros new st. split.
  - unfold Server.get_available_moods, Netlify.get_available_moods.
    rewrite !bind_run.
    destruct (ytmusic st) as [yt|] eqn:E.
    + by rewrite (server_get_ytmusic_memo _ _ _ _ E), (netlify_get_ytmusic_memo _ _ _ E).
    + rewrite (server_get_ytmusic_fresh _ _ E), (netlify_get_ytmusic_fresh _ _ E).
      by destruct (new (constructions st)).
  - intros yt cats Hyt Hcats. unfold Netlify.get_available_moods.
    rewrite bind_run, (netlify_get_ytmusic_memo _ _ _ Hyt).
    unfold try_except, call_get_mood_categories. rewrite !bind_run.
    unfold emit, lift, ret. by rewrite Hcats, Hyt, flatten_moods_items.
Qed.

Lemma moods_are_the_taxonomy_items_witness :
  Netlify.get_available_moods offline warm =
  (Return (Items [ {| Mood.title := PStr "Party"; Mood.params := PStr "p1" |} ]),
   {| ytmusic := Some demo_client; log := [GetMoodCategories] |}).
Proof.
  apply (proj2 (moods_are_the_taxonomy_items offline warm) demo_client
           [("Moods & moments", [mood_item "Party" "p1"])]); reflexivity.
Defined.


(** *** Client calls per operation *)

Lemma truthy_token (v : pyval) :
  truthy v = true -> exists p, v = PStr p /\ p <> "".
Proof.
  destruct v as [|p]; [done|]. simpl. intros H%negb_true_iff%String.eqb_neq. eauto.
Qed.

Lemma search_logs_one_call av new st yt query limit :
  ytmusic st = Some yt ->
  log (Netlify.search_playlists new query limit st).2
  = (log st ++ [Search query limit])%list /\
  log (Server.search_playlists av new query limit st).2
  = (log st ++ [Search query limit])%list.
Proof.
  intros Hyt. split.
  - unfold Netlify.search_playlists.
    rewrite bind_run, (netlify_get_ytmusic_memo _ _ _ Hyt).
    unfold try_except, call_search. rewrite !bind_run.
    unfold emit, lift, ret. by destruct (search yt query limit).
  - unfold Server.search_playlists.
    rewrite bind_run, (server_get_ytmusic_memo _ _ _ _ Hyt).
    unfold try_except, call_search. rewrite !bind_run.
    unfold emit, lift, ret. by destruct (search yt query limit).
Qed.

(** X12: with the handle at hand, whatever the upstream answers or
    raises, listing the moods makes exactly one client call
    ([get_mood_categories]) and search exactly one ([search], with the
    query and limit as given), in both files; the dev server's browse
    calls [get_mood_categories] and then [get_mood_playlists] at most
    once, and never with [None] or an empty token. *)
Theorem client_calls_per_operation :
  forall (av : bool) (new : nat -> outcome YTMusic) (st : State) (yt : YTMusic),
    ytmusic st = Some yt ->
    log (Netlify.get_available_moods new st).2 = (log st ++ [GetMoodCategories])%list /\
    log (Server.get_available_moods av new st).2 = (log st ++ [GetMoodCategories])%list /\
    (forall query limit,
        log (Netlify.search_playlists new query limit st).2
        = (log st ++ [Search query limit])%list /\
        log (Server.search_playlists av new query limit st).2
        = (log st ++ [Search query limit])%list) /\
    (forall mood limit,
        log (Server.fetch_mood_playlists av new mood limit st).2
        = (log st ++ [GetMoodCategories])%list \/
        exists p, p <> "" /\
          log (Server.fetch_mood_playlists av new mood limit st).2
          = (log st ++ [GetMoodCategories; GetMoodPlaylists (PStr p)])%list).
Proof.
  intros av new st yt Hyt.
  pose proof (netlify_get_ytmusic_memo new st yt Hyt) as HN.
  pose proof (server_get_ytmusic_memo av new st yt Hyt) as HS.
  split_and!.
  - unfold Netlify.get_available_moods. rewrite bind_run, HN.
    unfold try_except, call_get_mood_categories. rewrite !bind_run.
    unfold emit, lift, ret. by destruct (get_mood_categories yt).
  - unfold Server.get_available_moods. rewrite bind_run, HS.
    unfold try_except, call_get_mood_categories. rewrite !bind_run.
    unfold emit, lift, ret. by destruct (get_mood_categories yt).
  - intros query limit. by apply (search_logs_one_call av new st yt).
  - intros mood limit. unfold Server.fetch_mood_playlists. rewrite bind_run, HS.
    unfold try_except, call_get_mood_categories. rewrite !bind_run.
    unfold emit, lift, ret.
    destruct (get_mood_categories yt) as [cats | e]; simpl; [|by left].
    rewrite bind_run.
    destruct (Server.match_categories
                (lower (default mood (MOOD_CATEGORIES !! lower mood))) cats PNone)
      as [m | e]; simpl; [|by left].
    destruct (truthy (Server.fallback cats m)) eqn:Ht; simpl; [|by left].
    destruct (truthy_token _ Ht) as (p & Hp & Hne). right. exists p. split; [done|].
    rewrite Hp. unfold call_get_mood_playlists. rewrite !bind_run.
    unfold emit, lift, ret. simpl. rewrite <- app_assoc.
    by destruct (get_mood_playlists yt (PStr p)).
Qed.

Lemma client_calls_per_operation_witness :
  log (Netlify.get_available_moods offline (holding failing)).2 = [GetMoodCategories].
Proof.
  apply (proj1 (client_calls_per_operation true offline (holding failing) failing eq_refl)).
Defined.

(** *** The url of a summary *)

Lemma netlify_scan_items_all (P : Summary.t -> Prop) yt target limit items playlists st l :
  (forall p, P (Netlify.browse_summary p)) ->
  Forall P playlists ->
  (Netlify.scan_items yt target limit items playlists st).1 = Return l ->
  Forall P l.
Proof.
  intros HP. revert playlists st. induction items as [|item rest IH];
    intros playlists st Hacc; simpl.
  - by intros [= <-].
  - rewrite bind_run. unfold lift at 1.
    destruct (py_lower _) as [item_title | e]; [|done].
    destruct (py_in target item_title); [|by apply IH].
    rewrite bind_run. unfold lift at 1.
    destruct (Netlify.subscript_params item) as [p | e]; [|done].
    rewrite bind_run.
    destruct (call_get_mood_playlists yt p st) as [[mood_playlists | e] st'] eqn:E;
      [|done].
    apply IH. rewrite netlify_add_groups_spec. apply Forall_app. split; [done|].
    apply Forall_take, Forall_map, Forall_forall. intros; apply HP.
Qed.

Lemma netlify_scan_categories_all (P : Summary.t -> Prop) yt target limit cats
    playlists st l :
  (forall p, P (Netlify.browse_summary p)) ->
  Forall P playlists ->
  (Netlify.scan_categories yt target limit cats playlists st).1 = Return l ->
  Forall P l.
Proof.
  intros HP. revert playlists st. induction cats as [|[name items] rest IH];
    intros playlists st Hacc; simpl.
  - by intros [= <-].
  - rewrite bind_run.
    destruct (Netlify.scan_items yt target limit items playlists st)
      as [[playlists' | e] st'] eqn:E; [|done].
    apply IH. eapply netlify_scan_items_all; [done | done |]. by rewrite E.
Qed.

(** X13: in every list an adapter operation returns, the [url] of a
    summary is a fixed prefix followed by [str] of its own [id].  The
    prefix is [https://music.youtube.com/playlist?list=] for the
    serverless browse and [https://www.youtube.com/playlist?list=] for the
    serverless search and for both operations of the dev server. *)
Theorem summaries_link_to_their_id :
  forall (av : bool) (new : nat -> outcome YTMusic) (st : State) (l : list Summary.t),
    (forall mood limit,
        (Netlify.fetch_mood_playlists new mood limit st).1 = Return (Items l) ->
        Forall (links_to "https://music.youtube.com") l) /\
    (forall query limit,
        (Netlify.search_playlists new query limit st).1 = Return (Items l) ->
        Forall (links_to "https://www.youtube.com") l) /\
    (forall mood limit,
        (Server.fetch_mood_playlists av new mood limit st).1 = Return (Items l) ->
        Forall (links_to "https://www.youtube.com") l) /\
    (forall query limit,
        (Server.search_playlists av new query limit st).1 = Return (Items l) ->
        Forall (links_to "https://www.youtube.com") l).
Proof.
  intros av new st l. split_and!.
  - intros mood limit. unfold Netlify.fetch_mood_playlists. rewrite bind_run.
    destruct (Netlify.get_ytmusic new st) as [[yt | e] st1]; [|done].
    unfold try_except. rewrite bind_run.
    destruct (call_get_mood_categories yt st1) as [[cats | e] st2]; [|done].
    rewrite bind_run.
    destruct (Netlify.scan_categories yt _ limit cats [] st2) as [[ps | e] st3] eqn:E;
      [|done].
    intros [= <-].
    eapply (netlify_scan_categories_all (links_to "https://music.youtube.com"));
      [done | constructor | by rewrite E].
  - intros query limit. unfold Netlify.search_playlists. rewrite bind_run.
    destruct (Netlify.get_ytmusic new st) as [[yt | e] st1]; [|done].
    unfold try_except. rewrite bind_run.
    destruct (call_search yt query limit st1) as [[results | e] st2]; [|done].
    intros [= <-]. rewrite netlify_collect_results_spec. simpl.
    by apply Forall_map, Forall_forall.
  - intros mood limit. unfold Server.fetch_mood_playlists. rewrite bind_run.
    destruct (Server.get_ytmusic av new st) as [[[yt|] | e] st1]; [|done|done].
    unfold try_except. rewrite bind_run.
    destruct (call_get_mood_categories yt st1) as [[cats | e] st2]; [|done].
    rewrite bind_run. unfold lift at 1.
    destruct (Server.match_categories _ cats PNone) as [m | e]; [|done].
    destruct (truthy (Server.fallback cats m)).
    + rewrite bind_run.
      destruct (call_get_mood_playlists yt _ st2) as [[groups | e] st3]; [|done].
      intros [= <-]. rewrite server_add_groups_spec. simpl.
      by apply Forall_take, Forall_map, Forall_forall.
    + intros [= <-]. constructor.
  - intros query limit. unfold Server.search_playlists. rewrite bind_run.
    destruct (Server.get_ytmusic av new st) as [[[yt|] | e] st1]; [|done|done].
    unfold try_except. rewrite bind_run.
    destruct (call_search yt query limit st1) as [[results | e] st2]; [|done].
    intros [= <-]. rewrite server_collect_results_spec. simpl.
    by apply Forall_map, Forall_forall.
Qed.


Lemma summaries_link_to_their_id_witness :
  Forall (links_to "https://www.youtube.com")
         [Server.summary (record "PL1") (PStr "PL1")].
Proof.
  apply (proj1 (proj2 (proj2 (summaries_link_to_their_id true offline warm
                                [Server.summary (record "PL1") (PStr "PL1")])))
           "party" 1).
  reflexivity.
Defined.

(** *** The rest of the request handler *)

Lemma append_assoc (a b c : string) : (a ++ b) ++ c = a ++ b ++ c.
Proof.
  induction a as [|x a IH]; [done|]. by rewrite !append_cons, IH.
Qed.

Lemma substring_trans (a b c : string) :
  substring a b -> substring b c -> substring a c.
Proof.
  intros (p1 & q1 & ->) (p2 & q2 & ->). exists (p2 ++ p1), (q1 ++ q2).
  by rewrite !append_assoc.
Qed.

(** X15: [log_message] prints a request line that mentions [/api/] with
    the tag [API]; any other line is printed, with the tag [GET], exactly
    when none of [.js], [.css], [.ico], [.png], [.jpg] occurs in it.  The
    test is containment, not the file extension: a line that mentions
    [.json] is silenced too. *)
Theorem log_message_silences_assets :
  forall line : string,
    (substring "/api/" line -> DevHandler.log_message line = Some ("[API] " ++ line)) /\
    (~ substring "/api/" line ->
     (DevHandler.log_message line = None <->
      exists ext, ext ∈ [".js"; ".css"; ".ico"; ".png"; ".jpg"] /\ substring ext line) /\
     (DevHandler.log_message line = None \/
      DevHandler.log_message line = Some ("[GET] " ++ line)) /\
     (substring ".json" line -> DevHandler.log_message line = None)).
Proof.
  intros line. unfold DevHandler.log_message. split.
  - intros H%py_in_spec. by rewrite H.
  - intros H. rewrite <- py_in_spec in H. apply not_true_is_false in H. rewrite H.
    assert (existsb (fun ext => py_in ext line) [".js"; ".css"; ".ico"; ".png"; ".jpg"]
            = true <->
            exists ext, ext ∈ [".js"; ".css"; ".ico"; ".png"; ".jpg"] /\ substring ext line)
      as Hex.
    { rewrite existsb_exists. split; intros (ext & Hin & Hs); exists ext.
      - split; [by apply list_elem_of_In | by apply py_in_spec].
      - split; [by apply list_elem_of_In | by apply py_in_spec]. }
    destruct (existsb _ _) eqn:E; simpl.
    + split_and!; [|by left|done]. split; [intros _; by apply Hex | done].
    + split_and!; [|by right|].
      * split; [done|]. intros Hx. apply Hex in Hx. done.
      * intros Hj. assert (false = true) as Habs; [|done]. apply Hex.
        exists ".js". split; [constructor|].
        apply (substring_trans _ ".json"); [|done]. by exists "", "on".
Qed.

Lemma log_message_silences_assets_witness :
  DevHandler.log_message "GET /data/poses.json HTTP/1.1" = None.
Proof.
  apply (proj2 (log_message_silences_assets "GET /data/poses.json HTTP/1.1")).
  - rewrite <- py_in_spec. vm_compute. discriminate.
  - by exists "GET /data/poses", " HTTP/1.1".
Defined.


(** *** Requests and the upstream *)

(** X16: for a search request with a non-empty [q], a router that holds
    the handle makes exactly one client call: [search] with [q] as it
    came and the effective limit of the request, an integer of [1, 50]. *)
Theorem search_passes_query_and_limit :
  forall (av : bool) (new : nat -> outcome YTMusic) (st : State) (yt : YTMusic)
         (q : string),
    ytmusic st = Some yt ->
    q <> "" ->
    (forall params : gmap string string,
        params !! "action" = Some "search" ->
        params !! "q" = Some q ->
        exists n, Netlify.request_limit params = Return n /\ 1 <= n <= 50 /\
          log (Netlify.handler new (Some params) st).2 = (log st ++ [Search q n])%list) /\
    (forall params : gmap string Server.qs_values,
        Server.first <$> params !! "action" = Some "search" ->
        Server.first <$> params !! "q" = Some q ->
        exists n, Server.request_limit params = Return n /\ 1 <= n <= 50 /\
          log (Server.handle_api av new params st).2 = (log st ++ [Search q n])%list).
Proof.
  intros av new st yt q Hyt Hq. apply String.eqb_neq in Hq.
  pose proof (fun query limit => search_logs_one_call av new st yt query limit Hyt) as Hs.
  split.
  - intros params Ha Hqp.
    destruct (parse_limit_range (default "10" (params !! "limit"))) as (n & Hn & Hr).
    exists n. split; [done|]. split; [done|].
    unfold Netlify.handler. simpl. rewrite bind_run.
    unfold Netlify.request_limit, lift. rewrite Hn, Ha, Hqp. simpl. rewrite Hq. simpl.
    rewrite !bind_run. destruct (Hs q n) as [HsN _].
    by destruct (Netlify.search_playlists new q n st) as [[?|?] ?].
  - intros params Ha Hqp.
    destruct (parse_limit_range (Server.param params "limit" "10")) as (n & Hn & Hr).
    exists n. split; [done|]. split; [done|].
    unfold Server.handle_api. rewrite bind_run.
    unfold Server.request_limit, lift. rewrite Hn.
    assert (Server.param params "action" "moods" = "search") as ->.
    { unfold Server.param. destruct (params !! "action"); by simplify_eq/=. }
    assert (Server.param params "q" "" = q) as ->.
    { unfold Server.param. destruct (params !! "q"); by simplify_eq/=. }
    simpl. rewrite Hq. simpl.
    rewrite !bind_run. destruct (Hs q n) as [_ HsS].
    by destruct (Server.search_playlists av new q n st) as [[?|?] ?].
Qed.

Lemma search_passes_query_and_limit_witness :
  exists n, Netlify.request_limit
              {[ "action" := "search"; "q" := "lo-fi beats"; "limit" := "500" ]}
            = Return n /\ 1 <= n <= 50 /\
    log (Netlify.handler offline
           (Some {[ "action" := "search"; "q" := "lo-fi beats"; "limit" := "500" ]})
           warm).2
    = [Search "lo-fi beats" n].
Proof.
  apply (proj1 (search_passes_query_and_limit true offline warm demo_client "lo-fi beats"
                  eq_refl ltac:(discriminate))); reflexivity.
Defined.

Lemma op_from_none {A} yt st (r : outcome (adapter_result A) * State) :
  answers yt {| ytmusic := Some yt; log := log st ++ [Construct] |} r ->
  ytmusic r.2 = Some yt /\ constructions r.2 = S (constructions st).
Proof.
  intros (evs & -> & Hc & _). simpl. split; [done|].
  rewrite <- app_assoc, constructions_app, filter_app, length_app. simpl.
  pose proof (constructions_calls {| ytmusic := None; log := [] |} evs None Hc) as H.
  unfold constructions in H. simpl in H. lia.
Qed.

Lemma netlify_handler_from_none new event st yt :
  ytmusic st = None -> new (constructions st) = Return yt ->
  (Netlify.handler new event st).2 = st \/
  (ytmusic (Netlify.handler new event st).2 = Some yt /\
   constructions (Netlify.handler new event st).2 = S (constructions st)).
Proof.
  intros Hno Hnew. unfold Netlify.handler. rewrite bind_run.
  destruct (parse_limit_range (default "10" (default ∅ event !! "limit")))
    as (n & Hn & _).
  unfold Netlify.request_limit, lift. rewrite Hn.
  pose proof (netlify_get_ytmusic_fresh new st Hno) as Hget. rewrite Hnew in Hget.
  rewrite !bind_run.
  repeat match goal with |- context [if ?b then _ else _] => destruct b end;
    try (by left); right; rewrite bind_run.
  - destruct (op_from_none yt st _ (netlify_moods_answers new st yt _ Hget)).
    by destruct (Netlify.get_available_moods new st) as [[?|?] ?].
  - destruct (op_from_none yt st _
                (netlify_fetch_answers new
                   (default "party" (default ∅ event !! "mood")) n st yt _ Hget)).
    by destruct (Netlify.fetch_mood_playlists new _ n st) as [[?|?] ?].
  - destruct (op_from_none yt st _
                (netlify_search_answers new
                   (default "" (default ∅ event !! "q")) n st yt _ Hget)).
    by destruct (Netlify.search_playlists new _ n st) as [[?|?] ?].
Qed.

Lemma server_handle_api_from_none new params st yt :
  ytmusic st = None -> new (constructions st) = Return yt ->
  (Server.handle_api true new params st).2 = st \/
  (ytmusic (Server.handle_api true new params st).2 = Some yt /\
   constructions (Server.handle_api true new params st).2 = S (constructions st)).
Proof.
  intros Hno Hnew. unfold Server.handle_api. rewrite bind_run.
  destruct (parse_limit_range (Server.param params "limit" "10")) as (n & Hn & _).
  unfold Server.request_limit, lift. rewrite Hn.
  pose proof (server_get_ytmusic_fresh new st Hno) as Hget. rewrite Hnew in Hget.
  rewrite !bind_run.
  repeat match goal with |- context [if ?b then _ else _] => destruct b end;
    try (by left); right; rewrite bind_run.
  - destruct (op_from_none yt st _ (server_moods_answers true new st yt _ Hget)).
    by destruct (Server.get_available_moods true new st) as [[?|?] ?].
  - destruct (op_from_none yt st _
                (server_fetch_answers true new
                   (Server.param params "mood" "party") n st yt _ Hget)).
    by destruct (Server.fetch_mood_playlists true new _ n st) as [[?|?] ?].
  - destruct (op_from_none yt st _
                (server_search_answers true new
                   (Server.param params "q" "") n st yt _ Hget)).
    by destruct (Server.search_playlists true new _ n st) as [[?|?] ?].
Qed.

(** X17: on a host where [YTMusic()] never fails, a process evaluates it
    at most once in its life, whatever requests it serves; this holds for
    the serverless function and for the dev server, with or without the
    library. *)
Theorem healthy_constructor_runs_once :
  forall (av : bool) (new : nat -> outcome YTMusic)
         (events : list (option (gmap string string)))
         (requests : list (gmap string Server.qs_values)),
    (forall n, exists yt, new n = Return yt) ->
    (constructions (Netlify.serve new events initial) <= 1)%nat /\
    (constructions (Server.serve av new requests initial) <= 1)%nat.
Proof.
  intros av new events requests Hnew. split.
  - assert (forall st, ytmusic st = None ->
              (constructions (Netlify.serve new events st) <= S (constructions st))%nat)
      as H; [|by apply (H initial)].
    induction events as [|event rest IH]; intros st Hno; simpl; [lia|].
    destruct (Hnew (constructions st)) as (yt & Hyt).
    destruct (netlify_handler_from_none new event st yt Hno Hyt) as [-> | (Hk & Hc)].
    + by apply IH.
    + destruct (netlify_serve_keeps new rest _ yt Hk) as (_ & ->). lia.
  - destruct av; [|rewrite server_unavailable_serve; unfold constructions; simpl; lia].
    assert (forall st, ytmusic st = None ->
              (constructions (Server.serve true new requests st) <= S (constructions st))%nat)
      as H; [|by apply (H initial)].
    induction requests as [|params rest IH]; intros st Hno; simpl; [lia|].
    destruct (Hnew (constructions st)) as (yt & Hyt).
    destruct (server_handle_api_from_none new params st yt Hno Hyt) as [-> | (Hk & Hc)].
    + by apply IH.
    + destruct (server_serve_keeps true new rest _ yt Hk) as (_ & ->). lia.
Qed.

Lemma healthy_constructor_runs_once_witness :
  (constructions (Netlify.serve (fun _ => Return demo_client)
                    [None; Some {[ "action" := "browse" ]}; None] initial) <= 1)%nat /\
  (constructions (Server.serve true (fun _ => Return demo_client)
                    [query_string [("action", "moods")]; ∅] initial) <= 1)%nat.
Proof.
  apply (healthy_constructor_runs_once true (fun _ => Return demo_client)).
  intros n. by exists demo_client.
Defined.
